(** * Account-balance ledger of the finance platform: server actions

    A shallow embedding of the server actions of the repository

    - [getAccountWithTransactions], [bulkDeleteTransactions] and
      [updateDefaultAccount] (the account actions), and
    - the two copies of [createAccount] (the dashboard actions, one without
      and one with explicit connection management),

    over a model of the Prisma store they talk to, followed by the
    properties of the ledger that the specification states about them.

    Modelling conventions.
    - A table is the list of its rows; a [where] clause is a boolean
      predicate on rows, a [data] clause a function on rows.
    - A [Decimal] column and a JavaScript number are both an exact rational
      ([Qc]), and [+], unary [-] and [<] on them are those of numbers;
      rounding and overflow of floating point are not modelled.
    - An action is a function from the store to a completion (a value or a
      thrown exception) and the store it leaves: [await] is the bind of that
      monad, [try]/[catch]/[finally] and [db.$transaction] are combinators.
    - What the runtime supplies to a call (the session of [auth()], the
      decision of the abuse guard, the identifier the store generates for a
      new row) is an explicit argument of the action.
    - [console.error] is not modelled; [revalidatePath] is a no-op on the
      store. *)

From Stdlib Require Import ZArith QArith Qcanon List String Ascii Bool Lia.
From Stdlib Require Import Sorted Permutation.
Import ListNotations.

Local Open Scope string_scope.
Local Open Scope Z_scope.

(** ** JavaScript numbers and [parseFloat] *)

Inductive JSNumber : Type :=
| NaN
| Infinity (negative : bool)
| Finite (q : Qc).

Definition isNaN (x : JSNumber) : bool :=
  match x with NaN => true | _ => false end.

Definition Qc_ltb (x y : Qc) : bool :=
  match (x ?= y)%Qc with Lt => true | _ => false end.

Definition Qc_eqb (x y : Qc) : bool :=
  match (x ?= y)%Qc with Eq => true | _ => false end.

(** [x < 0] on JavaScript numbers: false on [NaN]. *)
Definition lt_zero (x : JSNumber) : bool :=
  match x with
  | NaN => false
  | Infinity negative => negative
  | Finite q => Qc_ltb q (Q2Qc 0)
  end.

Definition isWhiteSpace (c : ascii) : bool :=
  let n := nat_of_ascii c in
  ((9 <=? n) && (n <=? 13))%nat || (n =? 32)%nat.

Fixpoint trimStart (s : string) : string :=
  match s with
  | String c r => if isWhiteSpace c then trimStart r else s
  | EmptyString => s
  end.

Definition digitOf (c : ascii) : option Z :=
  let n := nat_of_ascii c in
  if ((48 <=? n) && (n <=? 57))%nat then Some (Z.of_nat (n - 48)) else None.

(** The longest prefix of decimal digits and what follows it. *)
Fixpoint takeDigits (s : string) : list Z * string :=
  match s with
  | String c r =>
      match digitOf c with
      | Some d => let (ds, rest) := takeDigits r in (d :: ds, rest)
      | None => ([], s)
      end
  | EmptyString => ([], s)
  end.

Definition digitsValue (ds : list Z) : Z :=
  fold_left (fun acc d => 10 * acc + d) ds 0.

(** The exponent part [e], [e+] or [e-] followed by at least one digit; an
    [e] that no digit follows is not part of the number. *)
Definition exponentPart (s : string) : Z :=
  match s with
  | String c r =>
      if (Ascii.eqb c "e" || Ascii.eqb c "E")%bool then
        match r with
        | String "-" r' =>
            match takeDigits r' with
            | ([], _) => 0
            | (ds, _) => - digitsValue ds
            end
        | String "+" r' => digitsValue (fst (takeDigits r'))
        | _ => digitsValue (fst (takeDigits r))
        end
      else 0
  | EmptyString => 0
  end.

(** [m * 10 ^ e] as an exact rational. *)
Definition scale10 (m e : Z) : Qc :=
  if 0 <=? e then Q2Qc (inject_Z (m * 10 ^ e))
  else Q2Qc (m # Pos.pow 10 (Z.to_pos (- e))).

(** [parseFloat]: leading white space is skipped (the ASCII white space
    characters are recognised), then the longest prefix that is a decimal
    literal (sign, [Infinity], digits, fraction, exponent) is the value;
    [NaN] when there is none. *)
Definition parseFloat (s : string) : JSNumber :=
  let s1 := trimStart s in
  let (negative, s2) :=
    match s1 with
    | String "-" r => (true, r)
    | String "+" r => (false, r)
    | _ => (false, s1)
    end in
  if String.prefix "Infinity" s2 then Infinity negative
  else
    let (ip, s3) := takeDigits s2 in
    let (fp, s4) :=
      match s3 with
      | String "." r => takeDigits r
      | _ => ([], s3)
      end in
    match ip, fp with
    | [], [] => NaN
    | _, _ =>
        let m := digitsValue (ip ++ fp)%list in
        let e := exponentPart s4 - Z.of_nat (List.length fp) in
        Finite (scale10 (if negative then - m else m) e)
    end.

(** ** The store *)

Local Open Scope string_scope.

Definition Id := string.

Inductive AccountType : Type := CURRENT | SAVINGS.

Inductive TransactionType : Type := INCOME | EXPENSE.

Record User : Type := mkUser {
  user_id : Id;
  clerkUserId : Id
}.

(** The columns of an account that the actions read or write. *)
Record Account : Type := mkAccount {
  account_id : Id;
  account_name : string;
  account_type : AccountType;
  balance : Qc;
  isDefault : bool;
  account_userId : Id
}.

Record Transaction : Type := mkTransaction {
  transaction_id : Id;
  transaction_type : TransactionType;
  amount : Qc;
  date : Z;
  transaction_accountId : Id;
  transaction_userId : Id
}.

(** The store behind the process-wide client [db]: the three tables and
    whether the client holds an open connection. *)
Record Db : Type := mkDb {
  users : list User;
  accounts : list Account;
  transactions : list Transaction;
  connected : bool
}.

Definition with_accounts (l : list Account) (d : Db) : Db :=
  mkDb (users d) l (transactions d) (connected d).

Definition with_transactions (l : list Transaction) (d : Db) : Db :=
  mkDb (users d) (accounts d) l (connected d).

Definition with_connected (b : bool) (d : Db) : Db :=
  mkDb (users d) (accounts d) (transactions d) b.

(** ** Exceptions, completions and the action monad *)

(** The errors the Prisma client throws in the modelled calls. *)
Inductive PrismaError : Type :=
| RecordNotFound           (* an [update] whose [where] matches no row *)
| UniqueConstraintFailed   (* a [create] with an identifier already in use *)
| InvalidValue.            (* a [create] with a value the column cannot hold *)

(** [error.message]: a literal of the source, or the text the client gives
    to one of its own errors. *)
Inductive Message : Type :=
| Text (s : string)
| PrismaText (e : PrismaError).

Inductive Exception : Type :=
| Error (msg : string)
| PrismaException (e : PrismaError).

Definition message (e : Exception) : Message :=
  match e with
  | Error msg => Text msg
  | PrismaException k => PrismaText k
  end.

Inductive Completion (A : Type) : Type :=
| Normal (a : A)
| Throw (e : Exception).

Arguments Normal {A} a.
Arguments Throw {A} e.

Definition Action (A : Type) : Type := Db -> Completion A * Db.

Definition ret {A} (a : A) : Action A := fun d => (Normal a, d).

Definition throw {A} (e : Exception) : Action A := fun d => (Throw e, d).

Definition bind {A B} (m : Action A) (k : A -> Action B) : Action B :=
  fun d =>
    match m d with
    | (Normal a, d') => k a d'
    | (Throw e, d') => (Throw e, d')
    end.

Declare Scope action_scope.
Delimit Scope action_scope with action.

Notation "x <- m ;; k" := (bind m (fun x => k))
  (at level 100, m at next level, right associativity) : action_scope.
Notation "m ;; k" := (bind m (fun _ => k))
  (at level 100, right associativity) : action_scope.

Local Open Scope action_scope.

(** [try { m } catch (error) { handler error }] *)
Definition try_catch {A} (m : Action A) (handler : Exception -> Action A)
  : Action A :=
  fun d =>
    match m d with
    | (Normal a, d') => (Normal a, d')
    | (Throw e, d') => handler e d'
    end.

(** [... finally { f }]: [f] runs on every exit path; the completion of the
    protected block stands unless [f] itself throws. *)
Definition try_finally {A} (m : Action A) (f : Action unit) : Action A :=
  fun d =>
    let (c, d') := m d in
    match f d' with
    | (Normal _, d'') => (c, d'')
    | (Throw e, d'') => (Throw e, d'')
    end.

(** [db.$transaction(async (tx) => m)]: when [m] throws, the writes it made
    are rolled back and the exception propagates. *)
Definition transaction {A} (m : Action A) : Action A :=
  fun d =>
    match m d with
    | (Normal a, d') => (Normal a, d')
    | (Throw e, _) => (Throw e, d)
    end.

(** [for (const x of l) { await body x }] *)
Fixpoint for_of {A} (l : list A) (body : A -> Action unit) : Action unit :=
  match l with
  | [] => ret tt
  | x :: r => body x ;; for_of r body
  end.

(** ** The Prisma client *)

(** [db.$connect()] and [db.$disconnect()]. Queries connect lazily, so the
    flag never blocks one; it records the explicit calls. *)
Definition db_connect : Action unit :=
  fun d => (Normal tt, with_connected true d).

Definition db_disconnect : Action unit :=
  fun d => (Normal tt, with_connected false d).

(** [db.user.findUnique({ where: { clerkUserId } })] *)
Definition user_findUnique (clerk : Id) : Action (option User) :=
  fun d => (Normal (find (fun u => clerkUserId u =? clerk) (users d)), d).

(** [db.account.findMany({ where })] *)
Definition account_findMany (where_ : Account -> bool)
  : Action (list Account) :=
  fun d => (Normal (filter where_ (accounts d)), d).

(** [db.account.findUnique({ where })] *)
Definition account_findUnique (where_ : Account -> bool)
  : Action (option Account) :=
  fun d => (Normal (find where_ (accounts d)), d).

(** [db.account.updateMany({ where, data })] *)
Definition account_updateMany (where_ : Account -> bool)
  (data : Account -> Account) : Action unit :=
  fun d =>
    (Normal tt,
     with_accounts (map (fun a => if where_ a then data a else a) (accounts d))
       d).

(** The first row that [where_] selects is rewritten by [data]. *)
Fixpoint update_first (where_ : Account -> bool) (data : Account -> Account)
  (l : list Account) : option (Account * list Account) :=
  match l with
  | [] => None
  | a :: r =>
      if where_ a then Some (data a, data a :: r)
      else
        match update_first where_ data r with
        | Some (a', r') => Some (a', a :: r')
        | None => None
        end
  end.

(** [db.account.update({ where, data })]: the updated row, or the client's
    "record to update not found" error. *)
Definition account_update (where_ : Account -> bool)
  (data : Account -> Account) : Action Account :=
  fun d =>
    match update_first where_ data (accounts d) with
    | Some (a', l') => (Normal a', with_accounts l' d)
    | None => (Throw (PrismaException RecordNotFound), d)
    end.

(** [db.account.create({ data })]: the store generates the identifier
    [newId]; the balance is stored in a [Decimal] column, which holds no
    [NaN] and no infinity. *)
Definition account_create (newId : Id) (name : string) (type : AccountType)
  (bal : JSNumber) (userId : Id) (isDefault_ : bool) : Action Account :=
  fun d =>
    match bal with
    | Finite q =>
        if existsb (fun a => account_id a =? newId) (accounts d)
        then (Throw (PrismaException UniqueConstraintFailed), d)
        else
          let a := mkAccount newId name type q isDefault_ userId in
          (Normal a, with_accounts (accounts d ++ [a])%list d)
    | _ => (Throw (PrismaException InvalidValue), d)
    end.

(** [db.transaction.findMany({ where })] *)
Definition transaction_findMany (where_ : Transaction -> bool)
  : Action (list Transaction) :=
  fun d => (Normal (filter where_ (transactions d)), d).

(** [db.transaction.deleteMany({ where })] *)
Definition transaction_deleteMany (where_ : Transaction -> bool)
  : Action unit :=
  fun d =>
    (Normal tt,
     with_transactions (filter (fun t => negb (where_ t)) (transactions d)) d).

(** [revalidatePath(path)]: a signal to the page cache. *)
Definition revalidatePath (path : string) : Action unit := ret tt.

(** ** The session and the abuse guard *)

(** What [auth()] gives: the Clerk user id of the caller, if any. *)
Definition Session := option Id.

(** [!userId]: no user id, or the empty string. *)
Definition no_userId (s : Session) : bool :=
  match s with
  | None => true
  | Some i => i =? ""
  end.

Definition session_userId (s : Session) : Id :=
  match s with
  | None => ""
  | Some i => i
  end.

(** What [aj.protect] decides for a request. *)
Inductive Decision : Type :=
| Allowed
| DeniedRateLimit
| DeniedOther.

Definition isDenied (d : Decision) : bool :=
  match d with Allowed => false | _ => true end.

Definition isRateLimit (d : Decision) : bool :=
  match d with DeniedRateLimit => true | _ => false end.

(** The result object of a mutating action: [{ success: true, data }] or
    [{ success: false, error }]. *)
Inductive Result (A : Type) : Type :=
| Success (data : A)
| Failure (error : Message).

Arguments Success {A} data.
Arguments Failure {A} error.

(** ** The account actions *)

Module AccountActions.

(** [Decimal.toNumber()] *)
Definition toNumber (x : Qc) : Qc := x.

(** [serializeDecimal] on a row with a [balance]. *)
Definition serializeDecimal_account (obj : Account) : Account :=
  mkAccount (account_id obj) (account_name obj) (account_type obj)
    (toNumber (balance obj)) (isDefault obj) (account_userId obj).

(** [serializeDecimal] on a row with an [amount]. *)
Definition serializeDecimal_transaction (obj : Transaction) : Transaction :=
  mkTransaction (transaction_id obj) (transaction_type obj)
    (toNumber (amount obj)) (date obj) (transaction_accountId obj)
    (transaction_userId obj).

(** An account together with what [include] asks for. *)
Record AccountWithTransactions : Type := mkAccountWithTransactions {
  awt_account : Account;
  awt_transactions : list Transaction;
  awt_count : nat
}.

Fixpoint insert_by_date_desc (t : Transaction) (l : list Transaction)
  : list Transaction :=
  match l with
  | [] => [t]
  | x :: r =>
      if (date x <=? date t)%Z then t :: l else x :: insert_by_date_desc t r
  end.

(** [orderBy: { date: "desc" }] *)
Definition orderBy_date_desc (l : list Transaction) : list Transaction :=
  fold_right insert_by_date_desc [] l.

(** [db.account.findUnique({ where, include: { transactions: { orderBy:
    { date: "desc" } }, _count: { select: { transactions: true } } } })] *)
Definition account_findUnique_include (where_ : Account -> bool)
  : Action (option AccountWithTransactions) :=
  fun d =>
    match find where_ (accounts d) with
    | None => (Normal None, d)
    | Some a =>
        let ts :=
          filter (fun t => transaction_accountId t =? account_id a)
            (transactions d) in
        (Normal
           (Some (mkAccountWithTransactions a (orderBy_date_desc ts)
                    (List.length ts))), d)
    end.

Definition getAccountWithTransactions (session : Session) (accountId : Id)
  : Action (option AccountWithTransactions) :=
  try_catch
    (if no_userId session then throw (Error "Unauthorized")
     else
       user <- user_findUnique (session_userId session) ;;
       match user with
       | None => throw (Error "User not found")
       | Some user =>
           account <-
             account_findUnique_include
               (fun a =>
                  (account_id a =? accountId)
                  && (account_userId a =? user_id user)) ;;
           match account with
           | None => ret None
           | Some account =>
               ret (Some
                      (mkAccountWithTransactions
                         (serializeDecimal_account (awt_account account))
                         (map serializeDecimal_transaction
                            (awt_transactions account))
                         (awt_count account)))
           end
       end)
    (fun error => ret None).

(** The object [accountBalanceChanges]: its own keys in insertion order
    (account identifiers are not array indices), each with its number. *)
Definition BalanceChanges := list (Id * Qc).

Fixpoint obj_get (o : BalanceChanges) (k : Id) : option Qc :=
  match o with
  | [] => None
  | (k', v) :: r => if k' =? k then Some v else obj_get r k
  end.

Fixpoint obj_set (o : BalanceChanges) (k : Id) (v : Qc) : BalanceChanges :=
  match o with
  | [] => [(k, v)]
  | (k', v') :: r => if k' =? k then (k', v) :: r else (k', v') :: obj_set r k v
  end.

(** [x || 0] on a property that is a number or [undefined]. *)
Definition or_zero (x : option Qc) : Qc :=
  match x with
  | Some v => v
  | None => Q2Qc 0
  end.

(** The reducer of [bulkDeleteTransactions]. *)
Definition add_change (acc : BalanceChanges) (transaction : Transaction)
  : BalanceChanges :=
  let change :=
    match transaction_type transaction with
    | EXPENSE => amount transaction
    | INCOME => (- amount transaction)%Qc
    end in
  obj_set acc (transaction_accountId transaction)
    (or_zero (obj_get acc (transaction_accountId transaction)) + change)%Qc.

(** [data: { balance: { increment: x } }] *)
Definition increment_balance (x : Qc) (a : Account) : Account :=
  mkAccount (account_id a) (account_name a) (account_type a)
    (balance a + x)%Qc (isDefault a) (account_userId a).

(** [data: { isDefault: b }] *)
Definition set_isDefault (b : bool) (a : Account) : Account :=
  mkAccount (account_id a) (account_name a) (account_type a)
    (balance a) b (account_userId a).

Definition bulkDeleteTransactions (session : Session)
  (transactionIds : list Id) : Action (Result unit) :=
  try_catch
    (if no_userId session then throw (Error "Unauthorized")
     else
       user <- user_findUnique (session_userId session) ;;
       match user with
       | None => throw (Error "User not found")
       | Some user =>
           let where_ := fun t =>
             existsb (String.eqb (transaction_id t)) transactionIds
             && (transaction_userId t =? user_id user) in
           transactions <- transaction_findMany where_ ;;
           if (List.length transactions =? 0)%nat
           then ret (Failure (Text "No transactions found to delete"))
           else
             let accountBalanceChanges :=
               fold_left add_change transactions [] in
             transaction
               (transaction_deleteMany where_ ;;
                for_of accountBalanceChanges
                  (fun entry =>
                     let (accountId, balanceChange) := entry in
                     _ <- account_update
                            (fun a => account_id a =? accountId)
                            (increment_balance balanceChange) ;;
                     ret tt)) ;;
             revalidatePath "/dashboard" ;;
             for_of (map fst accountBalanceChanges)
               (fun accountId => revalidatePath ("/account/" ++ accountId)) ;;
             ret (Success tt)
       end)
    (fun error => ret (Failure (message error))).

Definition updateDefaultAccount (session : Session) (accountId : Id)
  : Action (Result Account) :=
  try_catch
    (if no_userId session then throw (Error "Unauthorized")
     else
       user <- user_findUnique (session_userId session) ;;
       match user with
       | None => throw (Error "User not found")
       | Some user =>
           account_updateMany
             (fun a =>
                (account_userId a =? user_id user)
                && Bool.eqb (isDefault a) true)
             (set_isDefault false) ;;
           account <-
             account_update
               (fun a =>
                  (account_id a =? accountId)
                  && (account_userId a =? user_id user))
               (set_isDefault true) ;;
           revalidatePath "/" ;;
           revalidatePath ("/account/" ++ accountId) ;;
           ret (Success (serializeDecimal_account account))
       end)
    (fun error => ret (Failure (message error))).

End AccountActions.

(** ** The dashboard actions *)

(** The argument [data] of [createAccount]. *)
Record AccountInput : Type := mkAccountInput {
  data_name : string;
  data_type : AccountType;
  data_balance : string;
  data_isDefault : bool
}.

(** A property that holds a number or is [undefined]. *)
Inductive JSValue : Type :=
| Undefined
| Number (q : Qc).

(** The object [serializeTransaction] builds from an account row: the row's
    own properties, [balance] replaced, and an [amount] property added. *)
Record SerializedAccount : Type := mkSerializedAccount {
  s_id : Id;
  s_name : string;
  s_type : AccountType;
  s_balance : JSValue;
  s_isDefault : bool;
  s_userId : Id;
  s_amount : JSValue
}.

(** The object [serializeTransaction] builds from a transaction row: the
    row's own properties, [amount] replaced, and a [balance] property
    added. *)
Record SerializedTransaction : Type := mkSerializedTransaction {
  st_id : Id;
  st_type : TransactionType;
  st_amount : JSValue;
  st_date : Z;
  st_accountId : Id;
  st_userId : Id;
  st_balance : JSValue
}.

(** [orderBy: { key: "desc" }]: rows in descending order of [key]; rows
    with equal keys keep the order of the table. *)
Fixpoint insert_desc {A} (key : A -> Z) (x : A) (l : list A) : list A :=
  match l with
  | [] => [x]
  | y :: r => if (key y <=? key x)%Z then x :: l else y :: insert_desc key x r
  end.

Definition orderBy_desc {A} (key : A -> Z) (l : list A) : list A :=
  fold_right (insert_desc key) [] l.

(** [db.account.findMany({ where, orderBy: { createdAt: "desc" }, include:
    { _count: { select: { transactions: true } } } })]. The [createdAt]
    column is not among the modelled columns of an account; its value for a
    row is given by [createdAt]. Each row comes with the number of
    transactions that reference it. *)
Definition account_findMany_count (createdAt : Account -> Z)
  (where_ : Account -> bool) : Action (list (Account * nat)) :=
  fun d =>
    (Normal
       (map
          (fun a =>
             (a,
              List.length
                (filter (fun t => transaction_accountId t =? account_id a)
                   (transactions d))))
          (orderBy_desc createdAt (filter where_ (accounts d)))), d).

(** [db.transaction.findMany({ where, orderBy: { date: "desc" } })] *)
Definition transaction_findMany_by_date (where_ : Transaction -> bool)
  : Action (list Transaction) :=
  fun d => (Normal (orderBy_desc date (filter where_ (transactions d))), d).

(** The first copy of the dashboard actions. *)
Module Dashboard.

(** A [Decimal] is an object, so [obj.balance ? ... : ...] takes its first
    branch on an account row; the row has no [amount]. *)
Definition serializeTransaction (obj : Account) : SerializedAccount :=
  mkSerializedAccount (account_id obj) (account_name obj) (account_type obj)
    (Number (AccountActions.toNumber (balance obj))) (isDefault obj)
    (account_userId obj) Undefined.

Definition createAccount (session : Session) (decision : Decision)
  (newId : Id) (data : AccountInput) : Action (Result SerializedAccount) :=
  try_catch
    (if no_userId session then ret (Failure (Text "Unauthorized"))
     else if isDenied decision then
       if isRateLimit decision
       then ret (Failure (Text "Too many requests. Try again later."))
       else ret (Failure (Text "Request blocked"))
     else
       user <- user_findUnique (session_userId session) ;;
       match user with
       | None => ret (Failure (Text "User not found"))
       | Some user =>
           let balanceFloat := parseFloat (data_balance data) in
           if isNaN balanceFloat
           then ret (Failure (Text "Invalid balance amount"))
           else
             existingAccounts <-
               account_findMany (fun a => account_userId a =? user_id user) ;;
             let shouldBeDefault :=
               if (List.length existingAccounts =? 0)%nat then true
               else data_isDefault data in
             (if shouldBeDefault
              then
                account_updateMany
                  (fun a =>
                     (account_userId a =? user_id user)
                     && Bool.eqb (isDefault a) true)
                  (AccountActions.set_isDefault false)
              else ret tt) ;;
             account <-
               account_create newId (data_name data) (data_type data)
                 balanceFloat (user_id user) shouldBeDefault ;;
             revalidatePath "/dashboard" ;;
             ret (Success (serializeTransaction account))
       end)
    (fun error => ret (Failure (Text "Failed to create account"))).

(** [serializeTransaction] on an account row with its [_count], which the
    spread keeps. *)
Definition serializeTransaction_count (obj : Account * nat)
  : SerializedAccount * nat :=
  (serializeTransaction (fst obj), snd obj).

(** [serializeTransaction] on a transaction row: its [amount] is a
    [Decimal], and it has no [balance]. *)
Definition serializeTransaction_row (obj : Transaction)
  : SerializedTransaction :=
  mkSerializedTransaction (transaction_id obj) (transaction_type obj)
    (Number (AccountActions.toNumber (amount obj))) (date obj)
    (transaction_accountId obj) (transaction_userId obj) Undefined.

Definition getUserAccounts (createdAt : Account -> Z) (session : Session)
  : Action (list (SerializedAccount * nat)) :=
  try_catch
    (if no_userId session then ret []
     else
       user <- user_findUnique (session_userId session) ;;
       match user with
       | None => ret []
       | Some user =>
           accounts <-
             account_findMany_count createdAt
               (fun a => account_userId a =? user_id user) ;;
           ret (map serializeTransaction_count accounts)
       end)
    (fun error => ret []).

Definition getDashboardData (session : Session)
  : Action (list SerializedTransaction) :=
  try_catch
    (if no_userId session then ret []
     else
       user <- user_findUnique (session_userId session) ;;
       match user with
       | None => ret []
       | Some user =>
           transactions <-
             transaction_findMany_by_date
               (fun t => transaction_userId t =? user_id user) ;;
           ret (map serializeTransaction_row transactions)
       end)
    (fun error => ret []).

End Dashboard.

(** The second copy of the dashboard actions, which opens and closes the
    connection around each action. *)
Module DashboardConn.

Definition serializeTransaction (obj : Account) : SerializedAccount :=
  mkSerializedAccount (account_id obj) (account_name obj) (account_type obj)
    (Number (AccountActions.toNumber (balance obj))) (isDefault obj)
    (account_userId obj) (Number (Q2Qc 0)).

Definition createAccount (session : Session) (decision : Decision)
  (newId : Id) (data : AccountInput) : Action (Result SerializedAccount) :=
  try_finally
    (try_catch
       (if no_userId session then ret (Failure (Text "Unauthorized"))
        else
          db_connect ;;
          if isDenied decision then
            if isRateLimit decision
            then ret (Failure (Text "Too many requests. Try again later."))
            else ret (Failure (Text "Request blocked"))
          else
            user <- user_findUnique (session_userId session) ;;
            match user with
            | None => ret (Failure (Text "User not found"))
            | Some user =>
                let balanceFloat := parseFloat (data_balance data) in
                if isNaN balanceFloat || lt_zero balanceFloat
                then ret (Failure (Text "Invalid balance amount"))
                else
                  existingAccounts <-
                    account_findMany
                      (fun a => account_userId a =? user_id user) ;;
                  let shouldBeDefault :=
                    if (List.length existingAccounts =? 0)%nat then true
                    else data_isDefault data in
                  (if shouldBeDefault
                   then
                     account_updateMany
                       (fun a =>
                          (account_userId a =? user_id user)
                          && Bool.eqb (isDefault a) true)
                       (AccountActions.set_isDefault false)
                   else ret tt) ;;
                  account <-
                    account_create newId (data_name data) (data_type data)
                      balanceFloat (user_id user) shouldBeDefault ;;
                  revalidatePath "/dashboard" ;;
                  ret (Success (serializeTransaction account))
            end)
       (fun error => ret (Failure (Text "Failed to create account"))))
    db_disconnect.

Definition serializeTransaction_count (obj : Account * nat)
  : SerializedAccount * nat :=
  (serializeTransaction (fst obj), snd obj).

Definition serializeTransaction_row (obj : Transaction)
  : SerializedTransaction :=
  mkSerializedTransaction (transaction_id obj) (transaction_type obj)
    (Number (AccountActions.toNumber (amount obj))) (date obj)
    (transaction_accountId obj) (transaction_userId obj) (Number (Q2Qc 0)).

Definition getUserAccounts (createdAt : Account -> Z) (session : Session)
  : Action (list (SerializedAccount * nat)) :=
  try_finally
    (try_catch
       (if no_userId session then ret []
        else
          db_connect ;;
          user <- user_findUnique (session_userId session) ;;
          match user with
          | None => ret []
          | Some user =>
              accounts <-
                account_findMany_count createdAt
                  (fun a => account_userId a =? user_id user) ;;
              ret (map serializeTransaction_count accounts)
          end)
       (fun error => ret []))
    db_disconnect.

Definition getDashboardData (session : Session)
  : Action (list SerializedTransaction) :=
  try_finally
    (try_catch
       (if no_userId session then ret []
        else
          db_connect ;;
          user <- user_findUnique (session_userId session) ;;
          match user with
          | None => ret []
          | Some user =>
              transactions <-
                transaction_findMany_by_date
                  (fun t => transaction_userId t =? user_id user) ;;
              ret (map serializeTransaction_row transactions)
          end)
       (fun error => ret []))
    db_disconnect.

End DashboardConn.

(** ** The dashboard page *)

Module DashboardPage.

(** [accounts?.find((account) => account.isDefault)] on the list that
    [getUserAccounts] returns: the account the page asks the budget of. *)
Definition defaultAccount (accounts : list (SerializedAccount * nat))
  : option (SerializedAccount * nat) :=
  find (fun account => s_isDefault (fst account)) accounts.

End DashboardPage.

(** ** The hook [useFetch] *)

Module UseFetch.

(** The three state variables of the hook and the toasts shown so far. *)
Record HookState (R : Type) : Type := mkHookState {
  data : option R;            (* [undefined] until a call has succeeded *)
  loading : bool;
  error : option Exception;   (* [null] when there is none *)
  toasts : list Message
}.

Arguments mkHookState {R} data loading error toasts.
Arguments data {R} h.
Arguments loading {R} h.
Arguments error {R} h.
Arguments toasts {R} h.

(** The state of [useState(undefined)], [useState(false)] and
    [useState(null)]. *)
Definition initial {R} : HookState R := mkHookState None false None [].

Definition setData {R} (x : option R) (h : HookState R) : HookState R :=
  mkHookState x (loading h) (error h) (toasts h).

Definition setLoading {R} (b : bool) (h : HookState R) : HookState R :=
  mkHookState (data h) b (error h) (toasts h).

Definition setError {R} (e : option Exception) (h : HookState R)
  : HookState R :=
  mkHookState (data h) (loading h) e (toasts h).

(** [toast.error(text)] *)
Definition toast_error {R} (text : Message) (h : HookState R) : HookState R :=
  mkHookState (data h) (loading h) (error h) (toasts h ++ [text])%list.

(** What [fn] returns: the response of [cb], or the object [{ success:
    false, error: error.message }]. *)
Inductive Returned (R : Type) : Type :=
| Response (response : R)
| FailureObject (error : Message).

Arguments Response {R} response.
Arguments FailureObject {R} error.

(** [fn(...args)] for the callback [cb], already applied to its arguments:
    the value returned, the state of the hook after the setter calls, and
    the store the callback leaves. *)
Definition fn {R} (cb : Action R) (h : HookState R) (d : Db)
  : Returned R * HookState R * Db :=
  let h1 := setError None (setLoading true h) in
  match cb d with
  | (Normal response, d') =>
      (Response response,
       setLoading false (setError None (setData (Some response) h1)), d')
  | (Throw e, d') =>
      (FailureObject (message e),
       setLoading false (toast_error (message e) (setError (Some e) h1)), d')
  end.

End UseFetch.

(** ** Sequences of operations *)

(** One call of a mutating action, with what the runtime supplies to it. *)
Inductive Operation : Type :=
| CreateAccount (session : Session) (decision : Decision) (newId : Id)
    (data : AccountInput)
| CreateAccountConn (session : Session) (decision : Decision) (newId : Id)
    (data : AccountInput)
| UpdateDefaultAccount (session : Session) (accountId : Id)
| BulkDeleteTransactions (session : Session) (transactionIds : list Id).

(** The store a call leaves when it has run to completion. *)
Definition exec (op : Operation) (d : Db) : Db :=
  match op with
  | CreateAccount session decision newId data =>
      snd (Dashboard.createAccount session decision newId data d)
  | CreateAccountConn session decision newId data =>
      snd (DashboardConn.createAccount session decision newId data d)
  | UpdateDefaultAccount session accountId =>
      snd (AccountActions.updateDefaultAccount session accountId d)
  | BulkDeleteTransactions session transactionIds =>
      snd (AccountActions.bulkDeleteTransactions session transactionIds d)
  end.

Definition run (ops : list Operation) (d : Db) : Db :=
  fold_left (fun d op => exec op d) ops d.

(** ** The invariants of the data model *)

(** The accounts of a user. *)
Definition accounts_of (userId : Id) (d : Db) : list Account :=
  filter (fun a => account_userId a =? userId) (accounts d).

(** The accounts of a user that are flagged as default. *)
Definition defaults_of (userId : Id) (d : Db) : list Account :=
  filter isDefault (accounts_of userId d).

(** Invariant 1: a user with an account has exactly one default account, a
    user without accounts has none. *)
Definition default_singleton (userId : Id) (d : Db) : Prop :=
  match accounts_of userId d with
  | [] => defaults_of userId d = []
  | _ :: _ => List.length (defaults_of userId d) = 1%nat
  end.


Definition Qc_sum (l : list Qc) : Qc := fold_right Qcplus (Q2Qc 0) l.

(** The transactions that reference an account. *)
Definition transactions_of (accountId : Id) (ts : list Transaction)
  : list Transaction :=
  filter (fun t => transaction_accountId t =? accountId) ts.




(** The constraints the store itself enforces: account identifiers are a
    primary key, and the account of a transaction is a foreign key. *)
Definition primary_key (d : Db) : Prop :=
  NoDup (map account_id (accounts d)).


(** ** What the reconciler is specified to compute *)



(** The rows a set of identifiers resolves to for an owner. *)
Definition resolves (transactionIds : list Id) (userId : Id)
  (t : Transaction) : bool :=
  existsb (String.eqb (transaction_id t)) transactionIds
  && (transaction_userId t =? userId).

(** The user a session resolves to. *)
Definition current_user (session : Session) (d : Db) : option User :=
  if no_userId session then None
  else find (fun u => clerkUserId u =? session_userId session) (users d).

Import AccountActions.

(** ** The vocabulary of the properties *)


(** [updateMany({ where: { userId, isDefault: true }, data: { isDefault:
    false } })] on one row. *)
Definition clear_default (userId : Id) (a : Account) : Account :=
  if (account_userId a =? userId) && Bool.eqb (isDefault a) true
  then set_isDefault false a else a.

(** The default flag a new account of [userId] gets. *)
Definition shouldBeDefault (userId : Id) (requested : bool) (d : Db) : bool :=
  match accounts_of userId d with
  | [] => true
  | _ :: _ => requested
  end.

(** The account table after a creation for [userId]. *)
Definition accounts_after_create (a : Account) (d : Db) : list Account :=
  ((if isDefault a then map (clear_default (account_userId a)) (accounts d)
    else accounts d) ++ [a])%list.

Definition fresh_id (newId : Id) (d : Db) : Prop :=
  ~ In newId (map account_id (accounts d)).

(** The object the second copy returns for the object [s] of the first. *)
Definition with_amount_zero (s : SerializedAccount) : SerializedAccount :=
  mkSerializedAccount (s_id s) (s_name s) (s_type s) (s_balance s)
    (s_isDefault s) (s_userId s) (Number (Q2Qc 0)).


(** What identifies an account in the ledger: its identifier and balance. *)
Definition ledger_key (a : Account) : Id * Qc := (account_id a, balance a).




(** What decides the default of a user: the owner and the flag of each
    account. *)
Definition flag_key (a : Account) : Id * bool :=
  (account_userId a, isDefault a).

(** The call returns [{ success: true }]; a bulk deletion, which writes no
    flag, is let through whatever it returns. *)
Definition succeeds (op : Operation) (d : Db) : Prop :=
  match op with
  | CreateAccount session decision newId data =>
      exists s,
        fst (Dashboard.createAccount session decision newId data d)
        = Normal (Success s)
  | CreateAccountConn session decision newId data =>
      exists s,
        fst (DashboardConn.createAccount session decision newId data d)
        = Normal (Success s)
  | UpdateDefaultAccount session accountId =>
      exists s,
        fst (updateDefaultAccount session accountId d) = Normal (Success s)
  | BulkDeleteTransactions _ _ => True
  end.

(** Every call of the sequence succeeds on the store the calls before it
    leave. *)
Fixpoint all_succeed (ops : list Operation) (d : Db) : Prop :=
  match ops with
  | [] => True
  | op :: r => succeeds op d /\ all_succeed r (exec op d)
  end.

(** The error message of an action whose caller resolves to no user. *)
Definition unresolved_message (session : Session) : Message :=
  Text (if no_userId session then "Unauthorized" else "User not found").

(** Everything of an account but its balance. *)
Definition unbalanced_key (a : Account)
  : Id * string * AccountType * bool * Id :=
  (account_id a, account_name a, account_type a, isDefault a,
   account_userId a).

(** Everything of an account but its default flag. *)
Definition unflagged_key (a : Account)
  : Id * string * AccountType * Qc * Id :=
  (account_id a, account_name a, account_type a, balance a,
   account_userId a).

(** What a successful switch to [accountId] by [userId] makes of a row. *)
Definition switch_default (accountId userId : Id) (a : Account) : Account :=
  if (account_id a =? accountId) && (account_userId a =? userId)
  then set_isDefault true a else clear_default userId a.

(** Descending order of [key]. *)
Definition sorted_desc {A} (key : A -> Z) (l : list A) : Prop :=
  StronglySorted (fun x y => (key y <= key x)%Z) l.

(** The number of transactions that reference an account. *)
Definition transaction_count (d : Db) (a : Account) : nat :=
  List.length (transactions_of (account_id a) (transactions d)).

(** The ways a call of [createAccount] ends, for the completion [c] and the
    account table [rows'] it leaves: refused before any write; failed at the
    insert, after the defaults of the caller may have been cleared; or
    inserted. [serialize] is the [serializeTransaction] of the copy. *)
Definition create_outcome (serialize : Account -> SerializedAccount)
  (session : Session) (newId : Id) (data : AccountInput) (d : Db)
  (c : Completion (Result SerializedAccount)) (rows' : list Account) : Prop :=
  (exists m,
     c = Normal (Failure (Text m))
     /\ m <> "Failed to create account"
     /\ rows' = accounts d)
  \/ (exists user,
        current_user session d = Some user
        /\ c = Normal (Failure (Text "Failed to create account"))
        /\ (rows' = accounts d
            \/ rows' = map (clear_default (user_id user)) (accounts d)))
  \/ (exists user q,
        current_user session d = Some user
        /\ parseFloat (data_balance data) = Finite q
        /\ fresh_id newId d
        /\ c = Normal
                 (Success
                    (serialize
                       (mkAccount newId (data_name data) (data_type data) q
                          (shouldBeDefault (user_id user)
                             (data_isDefault data) d)
                          (user_id user))))
        /\ rows'
           = accounts_after_create
               (mkAccount newId (data_name data) (data_type data) q
                  (shouldBeDefault (user_id user) (data_isDefault data) d)
                  (user_id user)) d).

(** The object the second copy returns for the transaction object [s] of
    the first. *)
Definition with_balance_zero (s : SerializedTransaction)
  : SerializedTransaction :=
  mkSerializedTransaction (st_id s) (st_type s) (st_amount s) (st_date s)
    (st_accountId s) (st_userId s) (Number (Q2Qc 0)).


(** ** Example stores *)

Definition num (z : Z) : Qc := Q2Qc (inject_Z z).

Definition alice : User := mkUser "u1" "clerk_alice".
Definition bob : User := mkUser "u2" "clerk_bob".

(** No account yet. *)
Definition db_users : Db := mkDb [alice; bob] [] [] true.

(** The cross-account example: A (200) with an expense of 30 and an income
    of 50, B (50) with an expense of 20. *)
Definition db_cross : Db :=
  mkDb [alice; bob]
    [mkAccount "A" "Main" CURRENT (num 200) true "u1";
     mkAccount "B" "Rainy day" SAVINGS (num 50) false "u1"]
    [mkTransaction "t1" EXPENSE (num 30) 1 "A" "u1";
     mkTransaction "t2" INCOME (num 50) 2 "A" "u1";
     mkTransaction "t3" EXPENSE (num 20) 3 "B" "u1"]
    true.

(** One account, the default of its owner. *)
Definition db_one : Db :=
  mkDb [alice; bob] [mkAccount "A" "Main" CURRENT (num 200) true "u1"] [] true.

(** Transaction t9 of Alice references an account that is not in the
    store. *)
Definition db_dangling : Db :=
  mkDb [alice; bob]
    [mkAccount "A" "Main" CURRENT (num 200) true "u1"]
    [mkTransaction "t1" EXPENSE (num 30) 1 "A" "u1";
     mkTransaction "t9" INCOME (num 5) 2 "gone" "u1"]
    true.

(** * Properties *)

(** ** Running the monad *)

Lemma for_of_skip {A} (l : list A) (body : A -> Action unit) :
  (forall x d, body x d = (Normal tt, d)) ->
  forall d, for_of l body d = (Normal tt, d).
Proof.
  intros Hbody. induction l as [|x l IH]; intros d; simpl.
  - reflexivity.
  - unfold bind. rewrite Hbody. apply IH.
Qed.

Lemma current_user_some : forall session d user,
  current_user session d = Some user ->
  no_userId session = false /\
  find (fun u => clerkUserId u =? session_userId session) (users d) = Some user.
Proof.
  unfold current_user. intros session d user H.
  destruct (no_userId session); [discriminate | auto].
Qed.

Lemma filter_nil_iff {A} (f : A -> bool) (l : list A) :
  filter f l = [] <-> forall x, In x l -> f x = false.
Proof.
  induction l as [|a l IH]; simpl.
  - split; [intros _ x [] | reflexivity].
  - destruct (f a) eqn:E; split.
    + discriminate.
    + intros H. rewrite (H a) in E; [discriminate | now left].
    + intros H x [<- | Hx]; [assumption | now apply IH].
    + intros H. apply IH. intros x Hx. apply H. now right.
Qed.

(** ** Bulk deletion: the empty selection *)

Lemma bulkDelete_no_rows :
  forall (d : Db) (session : Session) (transactionIds : list Id) (user : User),
    current_user session d = Some user ->
    (forall t, In t (transactions d) ->
       In (transaction_id t) transactionIds ->
       transaction_userId t <> user_id user) ->
    bulkDeleteTransactions session transactionIds d
    = (Normal (Failure (Text "No transactions found to delete")), d).
Proof.
  intros d session ids user Hu Hnone.
  apply current_user_some in Hu as [Hs Hf].
  unfold bulkDeleteTransactions, try_catch, bind, user_findUnique,
    transaction_findMany.
  rewrite Hs, Hf.
  assert (E : filter (fun t => existsb (String.eqb (transaction_id t)) ids
                        && (transaction_userId t =? user_id user))
                (transactions d) = []).
  { apply filter_nil_iff. intros t Ht.
    destruct (existsb (String.eqb (transaction_id t)) ids) eqn:Ex; simpl.
    - apply existsb_exists in Ex as [i [Hi Heq]].
      apply String.eqb_eq in Heq. subst i.
      apply String.eqb_neq. now apply Hnone.
    - reflexivity. }
  rewrite E. reflexivity.
Qed.


(** C5. When no identifier of the set resolves to a transaction that the
    caller owns (the empty set and identifiers of other users included),
    [bulkDeleteTransactions] returns [{ success: false, error: "No
    transactions found to delete" }] and leaves the store as it was: no row
    is deleted and no balance changes. *)
Theorem bulkDelete_empty_selection :
  forall (d : Db) (session : Session) (transactionIds : list Id) (user : User),
    current_user session d = Some user ->
    (forall t, In t (transactions d) ->
       In (transaction_id t) transactionIds ->
       transaction_userId t <> user_id user) ->
    bulkDeleteTransactions session transactionIds d
    = (Normal (Failure (Text "No transactions found to delete")), d).
Proof. exact bulkDelete_no_rows. Qed.

Lemma bulkDelete_empty_selection_witness :
  bulkDeleteTransactions (Some "clerk_bob") ["t1"; "t2"; "t3"] db_cross
  = (Normal (Failure (Text "No transactions found to delete")), db_cross)
  /\ bulkDeleteTransactions (Some "clerk_alice") [] db_cross
     = (Normal (Failure (Text "No transactions found to delete")), db_cross).
Proof.
  split.
  - apply (bulkDelete_empty_selection db_cross (Some "clerk_bob")
             ["t1"; "t2"; "t3"] bob).
    + reflexivity.
    + intros t Ht _. simpl in Ht.
      destruct Ht as [<- | [<- | [<- | []]]]; discriminate.
  - apply (bulkDelete_empty_selection db_cross (Some "clerk_alice") [] alice).
    + reflexivity.
    + intros t _ [].
Defined.

(** ** Bulk deletion: the balance changes *)





Lemma keys_obj_set (o : BalanceChanges) (k : Id) (v : Qc) :
  map fst (obj_set o k v)
  = if existsb (String.eqb k) (map fst o) then map fst o
    else (map fst o ++ [k])%list.
Proof.
  induction o as [|[k0 v0] o IH]; simpl.
  - reflexivity.
  - rewrite (String.eqb_sym k k0).
    destruct (k0 =? k); simpl.
    + reflexivity.
    + rewrite IH. destruct (existsb (String.eqb k) (map fst o)); reflexivity.
Qed.

Lemma existsb_eqb_In (k : Id) (l : list Id) :
  existsb (String.eqb k) l = true <-> In k l.
Proof.
  rewrite existsb_exists. split.
  - intros [x [Hx E]]. apply String.eqb_eq in E. now subst.
  - intros H. exists k. split; [assumption | apply String.eqb_refl].
Qed.


Lemma keys_obj_set_In (o : BalanceChanges) (k k' : Id) (v : Qc) :
  In k' (map fst (obj_set o k v)) -> k' = k \/ In k' (map fst o).
Proof.
  rewrite keys_obj_set.
  destruct (existsb (String.eqb k) (map fst o)).
  - now right.
  - intros H. apply in_app_or in H as [H | [<- | []]]; auto.
Qed.


Lemma reducer_keys (ts : list Transaction) (acc : BalanceChanges) (k : Id) :
  In k (map fst (fold_left add_change ts acc)) ->
  In k (map fst acc) \/ In k (map transaction_accountId ts).
Proof.
  revert acc. induction ts as [|t ts IH]; intros acc H; simpl in *.
  - now left.
  - apply IH in H as [H | H]; [| now right; right].
    unfold add_change in H. apply keys_obj_set_In in H as [-> | H]; auto.
Qed.









Lemma db_cross_primary_key : primary_key db_cross.
Proof.
  unfold primary_key. simpl.
  repeat constructor; simpl; intuition congruence.
Qed.



(** ** Bulk deletion: deleting twice *)

(** The loop over the entries writes to the account table only. *)
Lemma update_loop_frame (o : BalanceChanges) :
  forall d c d',
    for_of o
      (fun entry =>
         let (accountId, balanceChange) := entry in
         _ <- account_update (fun a => account_id a =? accountId)
                (increment_balance balanceChange) ;;
         ret tt) d = (c, d') ->
    users d' = users d /\ transactions d' = transactions d
    /\ connected d' = connected d.
Proof.
  induction o as [|[k v] o IH]; intros d c d'; simpl.
  - unfold ret. intros E. inversion E. auto.
  - unfold bind at 1. unfold bind at 1. unfold account_update.
    destruct (update_first _ _ (accounts d)) as [[a' l']|].
    + unfold ret at 1. intros E. apply IH in E. simpl in E. exact E.
    + intros E. inversion E. auto.
Qed.

(** A successful bulk deletion: the caller is a known user, some row was
    resolved, the users are untouched and the resolved rows are gone. *)
Lemma bulkDelete_success_inv :
  forall d session transactionIds d1,
    bulkDeleteTransactions session transactionIds d
    = (Normal (Success tt), d1) ->
    exists user,
      current_user session d = Some user
      /\ users d1 = users d
      /\ transactions d1
         = filter (fun t => negb (resolves transactionIds (user_id user) t))
             (transactions d).
Proof.
  intros d session ids d1.
  unfold bulkDeleteTransactions, try_catch, current_user.
  unfold bind at 1. unfold user_findUnique.
  destruct (no_userId session); [discriminate |].
  destruct (find _ (users d)) as [user|]; [| discriminate].
  unfold bind at 1. unfold transaction_findMany.
  change (fun t : Transaction =>
            existsb (String.eqb (transaction_id t)) ids
            && (transaction_userId t =? user_id user))
    with (resolves ids (user_id user)).
  destruct (List.length _ =? 0)%nat; [discriminate |].
  unfold bind at 1. unfold transaction at 1. unfold bind at 1.
  unfold transaction_deleteMany at 1.
  match goal with
  | |- context [for_of ?o ?body ?d0] =>
      destruct (for_of o body d0) as [[[]|e] d'] eqn:Eloop
  end.
  - apply update_loop_frame in Eloop as (Hu & Ht & _). simpl in Hu, Ht.
    unfold bind at 1. unfold revalidatePath at 1, ret at 1.
    unfold bind at 1. rewrite for_of_skip by reflexivity.
    unfold ret. intros E. inversion E. subst d1.
    exists user. auto.
  - discriminate.
Qed.

(** C6. When [bulkDeleteTransactions] has succeeded on a set of identifiers,
    running it again on the same set returns the failure result of the empty
    selection (a result, not an exception) and leaves the store, hence every
    balance, as it was. *)
Theorem bulkDelete_twice :
  forall (d d1 : Db) (session : Session) (transactionIds : list Id),
    bulkDeleteTransactions session transactionIds d
    = (Normal (Success tt), d1) ->
    bulkDeleteTransactions session transactionIds d1
    = (Normal (Failure (Text "No transactions found to delete")), d1).
Proof.
  intros d d1 session ids H.
  apply bulkDelete_success_inv in H as (user & Hu & Husers & Hts).
  apply (bulkDelete_no_rows d1 session ids user).
  - unfold current_user in *. now rewrite Husers.
  - intros t Ht Hin. rewrite Hts in Ht. apply filter_In in Ht as [_ Hr].
    unfold resolves in Hr. apply negb_true_iff in Hr.
    assert (Ex : existsb (String.eqb (transaction_id t)) ids = true)
      by now apply existsb_eqb_In.
    rewrite Ex in Hr. simpl in Hr. now apply String.eqb_neq.
Qed.

Lemma bulkDelete_twice_witness :
  exists d1,
    bulkDeleteTransactions (Some "clerk_alice") ["t1"; "t3"] db_cross
    = (Normal (Success tt), d1)
    /\ bulkDeleteTransactions (Some "clerk_alice") ["t1"; "t3"] d1
       = (Normal (Failure (Text "No transactions found to delete")), d1).
Proof.
  eexists. split.
  - vm_compute. reflexivity.
  - apply (bulkDelete_twice db_cross). vm_compute. reflexivity.
Defined.

(** ** Switching the default account *)

(** C2, on the code. A switch to an identifier that resolves to no account
    of the caller does return a failure, but the store keeps the cleared
    flag: account A, the default before the call, is no longer the default
    after it, and no account is. *)
Theorem updateDefault_not_found_clears :
  updateDefaultAccount (Some "clerk_alice") "missing" db_one
  = (Normal (Failure (PrismaText RecordNotFound)),
     mkDb [alice; bob] [mkAccount "A" "Main" CURRENT (num 200) false "u1"]
       [] true)
  /\ map isDefault (accounts db_one) = [true]
  /\ map isDefault
       (accounts (snd (updateDefaultAccount (Some "clerk_alice") "missing"
                         db_one))) = [false].
Proof. repeat split. Qed.

(** C1, on the code. A user creates a first account, which becomes the
    default, then asks for a switch to an identifier that is not theirs: both
    calls run to completion, the user ends with one account and no default
    account. *)
Theorem default_singleton_lost :
  let ops :=
    [CreateAccount (Some "clerk_alice") Allowed "A"
       (mkAccountInput "Main" CURRENT "200" true);
     UpdateDefaultAccount (Some "clerk_alice") "missing"] in
  default_singleton "u1" db_users
  /\ default_singleton "u1" (run (firstn 1 ops) db_users)
  /\ List.length (accounts_of "u1" (run ops db_users)) = 1%nat
  /\ defaults_of "u1" (run ops db_users) = []
  /\ ~ default_singleton "u1" (run ops db_users).
Proof.
  cbv zeta. repeat split.
  unfold default_singleton. vm_compute. discriminate.
Qed.

(** ** Creating an account *)

Lemma fresh_id_existsb (newId : Id) (l : list Account) :
  ~ In newId (map account_id l) ->
  existsb (fun a => account_id a =? newId) l = false.
Proof.
  intros H. apply not_true_is_false. intros E.
  apply existsb_exists in E as [a [Ha Eid]].
  apply String.eqb_eq in Eid. apply H. rewrite <- Eid. now apply in_map.
Qed.

Lemma length_zero_match {A B} (l : list A) (x y : B) :
  (if (List.length l =? 0)%nat then x else y)
  = match l with [] => x | _ :: _ => y end.
Proof. now destruct l. Qed.

(** The path of the first copy on which an account is inserted. *)
Lemma createAccount_inserts :
  forall d session newId data user q,
    current_user session d = Some user ->
    parseFloat (data_balance data) = Finite q ->
    fresh_id newId d ->
    let a :=
      mkAccount newId (data_name data) (data_type data) q
        (shouldBeDefault (user_id user) (data_isDefault data) d)
        (user_id user) in
    Dashboard.createAccount session Allowed newId data d
    = (Normal (Success (Dashboard.serializeTransaction a)),
       with_accounts (accounts_after_create a d) d).
Proof.
  intros d session newId data user q Hu Hq Hfresh a.
  apply current_user_some in Hu as [Hs Hf].
  unfold Dashboard.createAccount, try_catch. rewrite Hs.
  change (isDenied Allowed) with false.
  cbv iota. unfold bind at 1. unfold user_findUnique. rewrite Hf.
  rewrite Hq. change (isNaN (Finite q)) with false. cbv iota.
  unfold bind at 1. unfold account_findMany.
  rewrite length_zero_match.
  fold (accounts_of (user_id user) d).
  fold (shouldBeDefault (user_id user) (data_isDefault data) d).
  unfold accounts_after_create, a. simpl isDefault. simpl account_userId.
  destruct (shouldBeDefault (user_id user) (data_isDefault data) d).
  - unfold bind at 1. unfold account_updateMany.
    unfold bind at 1. unfold account_create. simpl accounts.
    rewrite fresh_id_existsb.
    + reflexivity.
    + unfold fresh_id in Hfresh. rewrite map_map.
      erewrite map_ext; [exact Hfresh |].
      intros b. now destruct (_ && _).
  - unfold bind at 1. unfold ret at 1.
    unfold bind at 1. unfold account_create.
    rewrite fresh_id_existsb by exact Hfresh.
    reflexivity.
Qed.

(** The same path of the second copy, which is taken only when the balance
    is not negative. *)
Lemma createAccountConn_inserts :
  forall d session newId data user q,
    current_user session d = Some user ->
    parseFloat (data_balance data) = Finite q ->
    Qc_ltb q (Q2Qc 0) = false ->
    fresh_id newId d ->
    let a :=
      mkAccount newId (data_name data) (data_type data) q
        (shouldBeDefault (user_id user) (data_isDefault data) d)
        (user_id user) in
    DashboardConn.createAccount session Allowed newId data d
    = (Normal (Success (DashboardConn.serializeTransaction a)),
       with_connected false (with_accounts (accounts_after_create a d) d)).
Proof.
  intros d session newId data user q Hu Hq Hpos Hfresh a.
  apply current_user_some in Hu as [Hs Hf].
  unfold DashboardConn.createAccount, try_finally, try_catch. rewrite Hs.
  unfold bind at 1. unfold db_connect at 1.
  change (isDenied Allowed) with false. cbv iota.
  unfold bind at 1. unfold user_findUnique.
  change (users (with_connected true d)) with (users d). rewrite Hf.
  rewrite Hq. change (isNaN (Finite q)) with false.
  change (lt_zero (Finite q)) with (Qc_ltb q (Q2Qc 0)). rewrite Hpos.
  change (false || false) with false. cbv iota.
  unfold bind at 1. unfold account_findMany.
  change (accounts (with_connected true d)) with (accounts d).
  rewrite length_zero_match.
  fold (accounts_of (user_id user) d).
  fold (shouldBeDefault (user_id user) (data_isDefault data) d).
  unfold accounts_after_create, a. simpl isDefault. simpl account_userId.
  destruct (shouldBeDefault (user_id user) (data_isDefault data) d).
  - unfold bind at 1. unfold account_updateMany.
    unfold bind at 1. unfold account_create. simpl accounts.
    rewrite fresh_id_existsb.
    + reflexivity.
    + unfold fresh_id in Hfresh. rewrite map_map.
      erewrite map_ext; [exact Hfresh |].
      intros b. now destruct (_ && _).
  - unfold bind at 1. unfold ret at 1.
    unfold bind at 1. unfold account_create. simpl accounts.
    rewrite fresh_id_existsb by exact Hfresh.
    reflexivity.
Qed.



(** The second copy validates the balance: a string that does not parse, or
    parses to a negative number, is refused and no row is written. *)
Lemma createAccountConn_validates :
  forall d session newId data user,
    current_user session d = Some user ->
    isNaN (parseFloat (data_balance data))
    || lt_zero (parseFloat (data_balance data)) = true ->
    DashboardConn.createAccount session Allowed newId data d
    = (Normal (Failure (Text "Invalid balance amount")),
       with_connected false d).
Proof.
  intros d session newId data user Hu Hbad.
  apply current_user_some in Hu as [Hs Hf].
  unfold DashboardConn.createAccount, try_finally, try_catch. rewrite Hs.
  unfold bind at 1. unfold db_connect at 1.
  change (isDenied Allowed) with false. cbv iota.
  unfold bind at 1. unfold user_findUnique.
  change (users (with_connected true d)) with (users d). rewrite Hf.
  rewrite Hbad. reflexivity.
Qed.

(** The first copy refuses a string that does not parse. *)
Lemma createAccount_rejects_NaN :
  forall d session newId data user,
    current_user session d = Some user ->
    parseFloat (data_balance data) = NaN ->
    Dashboard.createAccount session Allowed newId data d
    = (Normal (Failure (Text "Invalid balance amount")), d).
Proof.
  intros d session newId data user Hu Hbad.
  apply current_user_some in Hu as [Hs Hf].
  unfold Dashboard.createAccount, try_catch. rewrite Hs.
  change (isDenied Allowed) with false. cbv iota.
  unfold bind at 1. unfold user_findUnique. rewrite Hf, Hbad.
  reflexivity.
Qed.

(** C7, on the code. The balance ["-5"] parses to the negative number -5.
    The first copy of [createAccount] tests [isNaN] only: it returns
    [success: true] and inserts an account with a balance of -5. The second
    copy, which also tests [balanceFloat < 0], refuses the same input and
    inserts nothing. *)
Theorem createAccount_accepts_negative :
  let data := mkAccountInput "Main" CURRENT "-5" false in
  parseFloat (data_balance data) = Finite (num (-5))
  /\ lt_zero (parseFloat (data_balance data)) = true
  /\ Dashboard.createAccount (Some "clerk_alice") Allowed "A" data db_users
     = (Normal
          (Success
             (mkSerializedAccount "A" "Main" CURRENT (Number (num (-5))) true
                "u1" Undefined)),
        mkDb [alice; bob] [mkAccount "A" "Main" CURRENT (num (-5)) true "u1"]
          [] true)
  /\ DashboardConn.createAccount (Some "clerk_alice") Allowed "A" data db_users
     = (Normal (Failure (Text "Invalid balance amount")),
        mkDb [alice; bob] [] [] false).
Proof. cbv zeta. repeat split. Qed.

(** ** The two copies of [createAccount] *)

(** How the primitives run under [bind]. *)
Lemma bind_connect {B} (k : unit -> Action B) (d : Db) :
  bind db_connect k d = k tt (with_connected true d).
Proof. reflexivity. Qed.

Lemma bind_user_findUnique {B} (clerk : Id) (k : option User -> Action B)
  (d : Db) :
  bind (user_findUnique clerk) k d
  = k (find (fun u => clerkUserId u =? clerk) (users d)) d.
Proof. reflexivity. Qed.

Lemma bind_account_findMany {B} (where_ : Account -> bool)
  (k : list Account -> Action B) (d : Db) :
  bind (account_findMany where_) k d = k (filter where_ (accounts d)) d.
Proof. reflexivity. Qed.






(** ** Reading an account *)

Lemma find_and_filter {A} (p q : A -> bool) (l : list A) :
  find (fun a => p a && q a) l = find p (filter q l).
Proof.
  induction l as [|a l IH]; simpl.
  - reflexivity.
  - destruct (q a); simpl.
    + rewrite andb_true_r. now rewrite IH.
    + rewrite andb_false_r. exact IH.
Qed.

Lemma find_none_iff {A} (p : A -> bool) (l : list A) :
  (forall a, In a l -> p a = false) -> find p l = None.
Proof.
  induction l as [|a l IH]; simpl; intros H.
  - reflexivity.
  - rewrite (H a) by now left. apply IH. intros b Hb. apply H. now right.
Qed.

(** What the caller gets depends on the accounts of the caller only. *)
Lemma getAccount_own_accounts :
  forall d session accountId,
    fst (getAccountWithTransactions session accountId d)
    = match current_user session d with
      | None => Normal None
      | Some user =>
          match
            find (fun a => account_id a =? accountId)
              (accounts_of (user_id user) d)
          with
          | None => Normal None
          | Some a =>
              let ts := transactions_of (account_id a) (transactions d) in
              Normal
                (Some
                   (mkAccountWithTransactions (serializeDecimal_account a)
                      (map serializeDecimal_transaction (orderBy_date_desc ts))
                      (List.length ts)))
          end
      end.
Proof.
  intros d session accountId.
  unfold getAccountWithTransactions, try_catch, current_user.
  destruct (no_userId session); [reflexivity |].
  rewrite bind_user_findUnique.
  destruct (find _ (users d)) as [user|]; [| reflexivity].
  unfold bind, account_findUnique_include, accounts_of.
  rewrite find_and_filter.
  destruct (find _ (filter _ (accounts d))) as [a|]; reflexivity.
Qed.

(** C9. [getAccountWithTransactions] returns [null] whenever no account
    with the given identifier belongs to the caller, be it that no such
    account exists or that it belongs to another user; and on two stores
    with the same users and transactions and the same accounts of the
    caller, whatever the accounts of the other users, it returns the same
    value. *)
Theorem getAccount_ownership_isolation :
  (forall (d : Db) (session : Session) (accountId : Id),
     (forall user a,
        current_user session d = Some user ->
        In a (accounts d) -> account_id a = accountId ->
        account_userId a <> user_id user) ->
     fst (getAccountWithTransactions session accountId d) = Normal None)
  /\ (forall (d1 d2 : Db) (session : Session) (accountId : Id),
        users d1 = users d2 ->
        transactions d1 = transactions d2 ->
        (forall user,
           current_user session d1 = Some user ->
           accounts_of (user_id user) d1 = accounts_of (user_id user) d2) ->
        fst (getAccountWithTransactions session accountId d1)
        = fst (getAccountWithTransactions session accountId d2)).
Proof.
  split.
  - intros d session accountId Hnot.
    rewrite getAccount_own_accounts.
    destruct (current_user session d) as [user|]; [| reflexivity].
    rewrite find_none_iff; [reflexivity |].
    intros a Ha. unfold accounts_of in Ha. apply filter_In in Ha as [Ha Ho].
    apply String.eqb_eq in Ho. apply String.eqb_neq. intros Eid.
    now apply (Hnot user a eq_refl Ha Eid).
  - intros d1 d2 session accountId Husers Hts Hown.
    rewrite !getAccount_own_accounts.
    assert (Hcu : current_user session d2 = current_user session d1)
      by (unfold current_user; now rewrite Husers).
    rewrite Hcu.
    destruct (current_user session d1) as [user|]; [| reflexivity].
    now rewrite (Hown user eq_refl), Hts.
Qed.

(** Bob asks for account A of Alice, and for an identifier that no account
    has: [null] both times; and with or without the accounts of Alice in the
    store. *)
Lemma getAccount_ownership_isolation_witness :
  fst (getAccountWithTransactions (Some "clerk_bob") "A" db_cross)
  = Normal None
  /\ fst (getAccountWithTransactions (Some "clerk_bob") "Z" db_cross)
     = Normal None
  /\ fst (getAccountWithTransactions (Some "clerk_bob") "A" db_cross)
     = fst (getAccountWithTransactions (Some "clerk_bob") "A"
              (with_accounts [] db_cross)).
Proof.
  destruct getAccount_ownership_isolation as [Hnull Hsame].
  split; [| split].
  - apply Hnull. intros user a Hu Ha Eid. injection Hu as <-.
    simpl in Ha. destruct Ha as [<- | [<- | []]]; discriminate.
  - apply Hnull. intros user a Hu Ha Eid. injection Hu as <-.
    simpl in Ha. destruct Ha as [<- | [<- | []]]; discriminate.
  - apply Hsame; try reflexivity.
    intros user Hu. injection Hu as <-. reflexivity.
Defined.

(** ** The balance of an account and its transactions *)

Lemma Qc_sum_app (l1 l2 : list Qc) :
  Qc_sum (l1 ++ l2) = (Qc_sum l1 + Qc_sum l2)%Qc.
Proof.
  induction l1 as [|x l1 IH]; simpl.
  - ring.
  - rewrite IH. ring.
Qed.




Lemma map_account_id_ledger (l : list Account) :
  map account_id l = map fst (map ledger_key l).
Proof. rewrite map_map. reflexivity. Qed.



Lemma ledger_keys_updateMany (where_ : Account -> bool) (b : bool)
  (l : list Account) :
  map ledger_key (map (fun a => if where_ a then set_isDefault b a else a) l)
  = map ledger_key l.
Proof.
  rewrite map_map. apply map_ext. intros a. now destruct (where_ a).
Qed.


Lemma existsb_fresh (newId : Id) (l : list Account) :
  existsb (fun a => account_id a =? newId) l = false ->
  ~ In newId (map account_id l).
Proof.
  intros E H. apply in_map_iff in H as [a [Eid Ha]].
  assert (T : existsb (fun a => account_id a =? newId) l = true).
  { apply existsb_exists. exists a. split; [assumption |].
    now apply String.eqb_eq. }
  congruence.
Qed.












Lemma run_cons (op : Operation) (ops : list Operation) (d : Db) :
  run (op :: ops) d = run ops (exec op d).
Proof. reflexivity. Qed.





(** ** The default account when every call succeeds *)

Lemma update_first_none (where_ : Account -> bool) (f : Account -> Account)
  (l : list Account) :
  (forall a, In a l -> where_ a = false) -> update_first where_ f l = None.
Proof.
  induction l as [|a l IH]; simpl; intros H.
  - reflexivity.
  - rewrite (H a) by now left.
    rewrite IH; [reflexivity |]. intros b Hb. apply H. now right.
Qed.

Lemma clear_default_keys (userId : Id) (a : Account) :
  account_id (clear_default userId a) = account_id a
  /\ account_userId (clear_default userId a) = account_userId a.
Proof. unfold clear_default. now destruct (_ && _). Qed.

(** The failure path of a switch, in general: the result is the client's
    "record not found" error and the defaults of the caller are cleared. *)
Lemma updateDefault_not_found :
  forall d session accountId user,
    current_user session d = Some user ->
    (forall a, In a (accounts d) -> account_id a = accountId ->
               account_userId a <> user_id user) ->
    updateDefaultAccount session accountId d
    = (Normal (Failure (PrismaText RecordNotFound)),
       with_accounts (map (clear_default (user_id user)) (accounts d)) d).
Proof.
  intros d session accountId user Hu Hnot.
  apply current_user_some in Hu as [Hs Hf].
  unfold updateDefaultAccount, try_catch. rewrite Hs.
  rewrite bind_user_findUnique, Hf.
  unfold bind at 1. unfold account_updateMany at 1.
  unfold bind at 1. unfold account_update at 1.
  cbn [accounts with_accounts].
  fold (clear_default (user_id user)).
  change (fun a : Account =>
            if (account_userId a =? user_id user) && eqb (isDefault a) true
            then set_isDefault false a else a)
    with (clear_default (user_id user)).
  rewrite update_first_none; [reflexivity |].
  intros a Ha. apply in_map_iff in Ha as [a0 [<- Ha0]].
  destruct (clear_default_keys (user_id user) a0) as [-> ->].
  destruct (String.eqb_spec (account_id a0) accountId) as [Eid | _];
    [| reflexivity].
  simpl. apply String.eqb_neq. now apply Hnot.
Qed.

Lemma filter_other_clear (u v : Id) (l : list Account) :
  v <> u ->
  filter (fun a => account_userId a =? v) (map (clear_default u) l)
  = filter (fun a => account_userId a =? v) l.
Proof.
  intros Hne. induction l as [|a l IH]; simpl.
  - reflexivity.
  - destruct (clear_default_keys u a) as [_ ->].
    destruct (String.eqb_spec (account_userId a) v) as [E | _].
    + rewrite IH. f_equal. unfold clear_default.
      destruct (String.eqb_spec (account_userId a) u) as [E' | _];
        [congruence | reflexivity].
    + exact IH.
Qed.

Lemma no_default_after_clear (u : Id) (l : list Account) :
  filter isDefault
    (filter (fun a => account_userId a =? u) (map (clear_default u) l)) = [].
Proof.
  induction l as [|a l IH]; simpl.
  - reflexivity.
  - destruct (clear_default_keys u a) as [_ ->].
    destruct (account_userId a =? u) eqn:E; [| exact IH].
    simpl. rewrite IH. unfold clear_default. rewrite E.
    destruct (isDefault a) eqn:Ed; simpl; [reflexivity | now rewrite Ed].
Qed.

(** Setting the flag on one row of [u]: the rows of the others are as
    before, and if [u] had no default, [u] has exactly one now. *)
Lemma update_first_sets_default (u : Id) (where_ : Account -> bool)
  (l : list Account) :
  (forall a, where_ a = true -> account_userId a = u) ->
  forall a' l',
    update_first where_ (set_isDefault true) l = Some (a', l') ->
    (forall v, v <> u ->
       filter (fun a => account_userId a =? v) l'
       = filter (fun a => account_userId a =? v) l)
    /\ filter (fun a => account_userId a =? u) l' <> []
    /\ (filter isDefault (filter (fun a => account_userId a =? u) l) = [] ->
        List.length
          (filter isDefault (filter (fun a => account_userId a =? u) l'))
        = 1%nat).
Proof.
  intros Hw. induction l as [|a l IH]; simpl; intros a' l' E.
  - discriminate.
  - destruct (where_ a) eqn:Ew.
    + injection E as <- <-. specialize (Hw a Ew).
      split; [| split].
      * intros v Hv. simpl.
        destruct (String.eqb_spec (account_userId a) v); [congruence |].
        reflexivity.
      * simpl. rewrite Hw, String.eqb_refl. discriminate.
      * simpl. rewrite Hw, String.eqb_refl. simpl.
        destruct (isDefault a); [discriminate |].
        now intros ->.
    + destruct (update_first where_ (set_isDefault true) l) as [[a0 l0]|];
        [| discriminate].
      injection E as <- <-.
      destruct (IH a0 l0 eq_refl) as (Hother & Hne & Hone).
      split; [| split].
      * intros v Hv. simpl. rewrite (Hother v Hv). reflexivity.
      * simpl. destruct (account_userId a =? u); [discriminate | exact Hne].
      * simpl. destruct (account_userId a =? u); [| exact Hone].
        simpl. destruct (isDefault a); [discriminate |]. exact Hone.
Qed.

(** A switch that succeeds leaves every user with a well-formed default. *)
Lemma updateDefault_keeps_singleton :
  forall d session accountId s d' v,
    updateDefaultAccount session accountId d = (Normal (Success s), d') ->
    default_singleton v d ->
    default_singleton v d'.
Proof.
  intros d session accountId s d' v.
  unfold updateDefaultAccount, try_catch.
  destruct (no_userId session); [discriminate |].
  rewrite bind_user_findUnique.
  destruct (find _ (users d)) as [user|]; [| discriminate].
  unfold bind at 1. unfold account_updateMany at 1.
  unfold bind at 1. unfold account_update at 1.
  cbn [accounts with_accounts].
  change (fun a : Account =>
            if (account_userId a =? user_id user) && eqb (isDefault a) true
            then set_isDefault false a else a)
    with (clear_default (user_id user)).
  destruct (update_first _ _ _) as [[a' l']|] eqn:Eup; [| discriminate].
  intros E. inversion E. subst d'. clear E.
  apply (update_first_sets_default (user_id user)) in Eup
    as (Hother & Hne & Hone).
  2:{ intros a Ha. apply andb_true_iff in Ha as [_ Ha].
      now apply String.eqb_eq. }
  unfold default_singleton, defaults_of, accounts_of. simpl.
  destruct (String.eqb_spec v (user_id user)) as [-> | Hv].
  - intros _.
    specialize (Hone (no_default_after_clear (user_id user) (accounts d))).
    destruct (filter _ l'); [congruence | exact Hone].
  - rewrite (Hother v Hv), (filter_other_clear _ _ _ Hv). auto.
Qed.

Lemma createAccount_success_inv :
  forall d session decision newId data s,
    fst (Dashboard.createAccount session decision newId data d)
    = Normal (Success s) ->
    exists user q,
      decision = Allowed
      /\ current_user session d = Some user
      /\ parseFloat (data_balance data) = Finite q
      /\ fresh_id newId d.
Proof.
  intros d session decision newId data s.
  unfold Dashboard.createAccount, try_catch, current_user.
  destruct (no_userId session); [discriminate |].
  destruct decision; [| discriminate | discriminate].
  change (isDenied Allowed) with false. cbv iota.
  rewrite bind_user_findUnique.
  destruct (find _ (users d)) as [user|]; [| discriminate].
  destruct (parseFloat (data_balance data)) as [|neg|q]; [discriminate | |];
    change (isNaN _) with false; cbv iota;
    rewrite bind_account_findMany;
    unfold bind, account_updateMany, account_create, revalidatePath, ret;
    cbn [accounts with_accounts].
  - destruct (List.length _ =? 0)%nat; [discriminate |].
    destruct (data_isDefault data); discriminate.
  - intros E. exists user, q. repeat split.
    destruct (List.length _ =? 0)%nat;
      [| destruct (data_isDefault data)];
      destruct (existsb _ _) eqn:Ex; try discriminate;
      apply existsb_fresh in Ex; unfold fresh_id;
      cbn [accounts with_accounts] in Ex;
      rewrite ?map_account_id_ledger, ?ledger_keys_updateMany in Ex;
      rewrite ?map_account_id_ledger; exact Ex.
Qed.

Lemma createAccountConn_success_inv :
  forall d session decision newId data s,
    fst (DashboardConn.createAccount session decision newId data d)
    = Normal (Success s) ->
    exists user q,
      decision = Allowed
      /\ current_user session d = Some user
      /\ parseFloat (data_balance data) = Finite q
      /\ Qc_ltb q (Q2Qc 0) = false
      /\ fresh_id newId d.
Proof.
  intros d session decision newId data s.
  unfold DashboardConn.createAccount, try_finally, try_catch, current_user.
  destruct (no_userId session); [discriminate |].
  rewrite bind_connect.
  destruct decision; [| discriminate | discriminate].
  change (isDenied Allowed) with false. cbv iota.
  rewrite bind_user_findUnique.
  change (users (with_connected true d)) with (users d).
  destruct (find _ (users d)) as [user|]; [| discriminate].
  destruct (parseFloat (data_balance data)) as [|neg|q]; [discriminate | |];
    change (isNaN _) with false; cbv iota.
  - destruct (false || lt_zero (Infinity neg)); [discriminate |].
    rewrite bind_account_findMany.
    unfold bind, account_updateMany, account_create, ret, db_disconnect.
    destruct (List.length _ =? 0)%nat; [discriminate |].
    destruct (data_isDefault data); discriminate.
  - change (false || lt_zero (Finite q)) with (Qc_ltb q (Q2Qc 0)).
    destruct (Qc_ltb q (Q2Qc 0)) eqn:Hpos; [discriminate |].
    rewrite bind_account_findMany.
    change (accounts (with_connected true d)) with (accounts d).
    unfold bind, account_updateMany, account_create, revalidatePath, ret,
      db_disconnect.
    cbn [accounts with_accounts with_connected users transactions connected].
    intros E. exists user, q.
    do 3 (split; [reflexivity |]). split; [exact Hpos |].
    destruct (List.length _ =? 0)%nat;
      [| destruct (data_isDefault data)];
      destruct (existsb _ _) eqn:Ex; try discriminate;
      apply existsb_fresh in Ex; unfold fresh_id;
      cbn [accounts with_accounts with_connected] in Ex;
      rewrite ?map_account_id_ledger, ?ledger_keys_updateMany in Ex;
      rewrite ?map_account_id_ledger; exact Ex.
Qed.

(** The account table after a creation keeps every user's default well
    formed: a new default replaces the old one, a new account that is not
    the default joins an owner that has one. *)
Lemma accounts_after_create_singleton (d d' : Db) (a : Account) (v : Id) :
  accounts d' = accounts_after_create a d ->
  (isDefault a = false -> accounts_of (account_userId a) d <> []) ->
  default_singleton v d ->
  default_singleton v d'.
Proof.
  intros Hacc Hflag.
  unfold default_singleton, defaults_of, accounts_of.
  rewrite Hacc. unfold accounts_after_create.
  rewrite filter_app. simpl.
  destruct (String.eqb_spec (account_userId a) v) as [E | Hne].
  - subst v. destruct (isDefault a) eqn:Ed.
    + intros _.
      destruct (filter _ (map _ (accounts d)) ++ [a])%list eqn:El.
      { now destruct (filter _ (map _ (accounts d))). }
      rewrite <- El, filter_app, no_default_after_clear. simpl.
      now rewrite Ed.
    + specialize (Hflag eq_refl). unfold accounts_of in Hflag.
      destruct (filter _ (accounts d)) as [|b l] eqn:El; [congruence |].
      intros H. simpl. rewrite filter_app. simpl. rewrite Ed.
      now rewrite app_nil_r.
  - rewrite app_nil_r.
    assert (Hv : v <> account_userId a) by congruence.
    destruct (isDefault a).
    + now rewrite (filter_other_clear _ _ _ Hv).
    + auto.
Qed.

Lemma shouldBeDefault_false (userId : Id) (requested : bool) (d : Db) :
  shouldBeDefault userId requested d = false -> accounts_of userId d <> [].
Proof.
  unfold shouldBeDefault. destruct (accounts_of userId d); [discriminate |].
  discriminate.
Qed.

Lemma createAccount_keeps_singleton :
  forall d session decision newId data s v,
    fst (Dashboard.createAccount session decision newId data d)
    = Normal (Success s) ->
    default_singleton v d ->
    default_singleton v
      (snd (Dashboard.createAccount session decision newId data d)).
Proof.
  intros d session decision newId data s v Hs.
  apply createAccount_success_inv in Hs as (user & q & -> & Hu & Hq & Hf).
  rewrite (createAccount_inserts d session newId data user q Hu Hq Hf).
  apply accounts_after_create_singleton with
    (a := mkAccount newId (data_name data) (data_type data) q
            (shouldBeDefault (user_id user) (data_isDefault data) d)
            (user_id user)).
  - reflexivity.
  - simpl. apply shouldBeDefault_false.
Qed.

Lemma createAccountConn_keeps_singleton :
  forall d session decision newId data s v,
    fst (DashboardConn.createAccount session decision newId data d)
    = Normal (Success s) ->
    default_singleton v d ->
    default_singleton v
      (snd (DashboardConn.createAccount session decision newId data d)).
Proof.
  intros d session decision newId data s v Hs.
  apply createAccountConn_success_inv in Hs
    as (user & q & -> & Hu & Hq & Hpos & Hf).
  rewrite (createAccountConn_inserts d session newId data user q
             Hu Hq Hpos Hf).
  apply accounts_after_create_singleton with
    (a := mkAccount newId (data_name data) (data_type data) q
            (shouldBeDefault (user_id user) (data_isDefault data) d)
            (user_id user)).
  - reflexivity.
  - simpl. apply shouldBeDefault_false.
Qed.

Lemma flags_lengths (v : Id) (l : list Account) :
  forall l',
    map flag_key l = map flag_key l' ->
    List.length (filter (fun a => account_userId a =? v) l)
    = List.length (filter (fun a => account_userId a =? v) l')
    /\ List.length
         (filter isDefault (filter (fun a => account_userId a =? v) l))
       = List.length
           (filter isDefault (filter (fun a => account_userId a =? v) l')).
Proof.
  induction l as [|a l IH]; intros [|a' l'] E; simpl in E;
    try discriminate.
  - split; reflexivity.
  - unfold flag_key in E at 1 3. injection E as Eo Ed E.
    destruct (IH l' E) as [H1 H2]. simpl. rewrite Eo.
    destruct (account_userId a' =? v); [| auto].
    simpl. rewrite Ed. destruct (isDefault a'); simpl; auto.
Qed.

(** The default of a user is decided by the owners and flags alone. *)
Lemma default_singleton_flags (v : Id) (d d' : Db) :
  map flag_key (accounts d') = map flag_key (accounts d) ->
  default_singleton v d ->
  default_singleton v d'.
Proof.
  intros E. destruct (flags_lengths v _ _ E) as [H1 H2].
  unfold default_singleton, defaults_of, accounts_of.
  destruct (filter _ (accounts d)) as [|b l];
    destruct (filter _ (accounts d')) as [|b' l']; simpl in H1;
    try discriminate.
  - reflexivity.
  - intros H. now rewrite H2.
Qed.

Lemma flags_update_first (where_ : Account -> bool) (x : Qc)
  (l : list Account) :
  forall a' l',
    update_first where_ (increment_balance x) l = Some (a', l') ->
    map flag_key l' = map flag_key l.
Proof.
  induction l as [|a l IH]; simpl; intros a' l' E.
  - discriminate.
  - destruct (where_ a).
    + injection E as <- <-. reflexivity.
    + destruct (update_first where_ (increment_balance x) l) as [[a0 l0]|];
        [| discriminate].
      injection E as <- <-. simpl. f_equal. now apply (IH a0 l0).
Qed.

Lemma update_loop_flags (o : BalanceChanges) :
  forall d c d',
    for_of o
      (fun entry =>
         let (accountId, balanceChange) := entry in
         _ <- account_update (fun a => account_id a =? accountId)
                (increment_balance balanceChange) ;;
         ret tt) d = (c, d') ->
    map flag_key (accounts d') = map flag_key (accounts d).
Proof.
  induction o as [|[k v] o IH]; intros d c d'; simpl.
  - unfold ret. intros E. now inversion E.
  - unfold bind at 1. unfold bind at 1. unfold account_update.
    destruct (update_first _ _ (accounts d)) as [[a' l']|] eqn:Eup.
    + unfold ret at 1. intros E. apply IH in E. simpl in E.
      rewrite E. now apply flags_update_first in Eup.
    + intros E. now inversion E.
Qed.

(** A bulk deletion writes no flag, whatever it returns. *)
Lemma bulkDelete_flags :
  forall d session transactionIds,
    map flag_key
      (accounts (snd (bulkDeleteTransactions session transactionIds d)))
    = map flag_key (accounts d).
Proof.
  intros d session ids.
  unfold bulkDeleteTransactions, try_catch.
  destruct (no_userId session); [reflexivity |].
  rewrite bind_user_findUnique.
  destruct (find _ (users d)) as [user|]; [| reflexivity].
  unfold bind at 1. unfold transaction_findMany.
  destruct (List.length _ =? 0)%nat; [reflexivity |].
  unfold bind at 1. unfold transaction at 1. unfold bind at 1.
  unfold transaction_deleteMany at 1.
  match goal with
  | |- context [for_of ?o ?body ?d0] =>
      destruct (for_of o body d0) as [[[]|e] d'] eqn:Eloop
  end.
  - apply update_loop_flags in Eloop. simpl in Eloop.
    unfold bind at 1. unfold revalidatePath at 1, ret at 1.
    unfold bind at 1. rewrite for_of_skip by reflexivity.
    exact Eloop.
  - reflexivity.
Qed.

Lemma exec_keeps_singleton (op : Operation) (d : Db) (v : Id) :
  succeeds op d ->
  default_singleton v d ->
  default_singleton v (exec op d).
Proof.
  destruct op as [session decision newId data | session decision newId data
                 | session accountId | session ids]; simpl.
  - intros [s Hs]. now apply createAccount_keeps_singleton with (s := s).
  - intros [s Hs]. now apply createAccountConn_keeps_singleton with (s := s).
  - intros [s Hs].
    destruct (updateDefaultAccount session accountId d) as [c d'] eqn:E.
    simpl in *. subst c.
    now apply (updateDefault_keeps_singleton d session accountId s d' v).
  - intros _. apply default_singleton_flags. apply bulkDelete_flags.
Qed.

(** Invariant 1 on the calls that succeed: when every creation and every
    switch of a sequence returns [{ success: true }], a user whose default
    was well formed at the start has a well-formed default at the end. *)
Lemma default_singleton_kept (ops : list Operation) :
  forall d v,
    all_succeed ops d ->
    default_singleton v d ->
    default_singleton v (run ops d).
Proof.
  induction ops as [|op ops IH]; intros d v Hall Hd.
  - exact Hd.
  - destruct Hall as [Hop Hall]. rewrite run_cons.
    apply IH; [exact Hall |]. now apply exec_keeps_singleton.
Qed.

(** * Further properties of the actions *)

(** ** Callers that resolve to no user *)

Lemma current_user_none : forall session d,
  current_user session d = None ->
  no_userId session = true
  \/ (no_userId session = false
      /\ find (fun u => clerkUserId u =? session_userId session) (users d)
         = None).
Proof.
  unfold current_user. intros session d.
  destruct (no_userId session); auto.
Qed.

(** X1. When the caller resolves to no user, the account actions stop before
    any query that writes: [getAccountWithTransactions] returns [null],
    [bulkDeleteTransactions] and [updateDefaultAccount] return a failure
    whose message is "Unauthorized" (no user id in the session) or "User not
    found", and the store is as it was. *)
Theorem account_actions_unresolved_caller :
  forall (d : Db) (session : Session),
    current_user session d = None ->
    (forall accountId,
       getAccountWithTransactions session accountId d = (Normal None, d))
    /\ (forall transactionIds,
          bulkDeleteTransactions session transactionIds d
          = (Normal (Failure (unresolved_message session)), d))
    /\ (forall accountId,
          updateDefaultAccount session accountId d
          = (Normal (Failure (unresolved_message session)), d)).
Proof.
  intros d session Hu. unfold unresolved_message.
  apply current_user_none in Hu as [Hs | [Hs Hf]].
  - repeat split; intros;
      unfold getAccountWithTransactions, bulkDeleteTransactions,
        updateDefaultAccount, try_catch; rewrite Hs; reflexivity.
  - repeat split; intros;
      unfold getAccountWithTransactions, bulkDeleteTransactions,
        updateDefaultAccount, try_catch; rewrite Hs;
      rewrite bind_user_findUnique, Hf; reflexivity.
Qed.

Lemma account_actions_unresolved_caller_witness :
  getAccountWithTransactions None "A" db_cross = (Normal None, db_cross)
  /\ bulkDeleteTransactions (Some "clerk_carol") ["t1"] db_cross
     = (Normal (Failure (Text "User not found")), db_cross)
  /\ updateDefaultAccount None "B" db_cross
     = (Normal (Failure (Text "Unauthorized")), db_cross).
Proof.
  split; [| split].
  - apply (account_actions_unresolved_caller db_cross None). reflexivity.
  - apply (account_actions_unresolved_caller db_cross (Some "clerk_carol")).
    reflexivity.
  - apply (account_actions_unresolved_caller db_cross None). reflexivity.
Defined.

(** ** Bulk deletion: all or nothing *)

(** The two ways a bulk deletion ends: the store as it was and a failure, or
    a success with the resolved rows deleted. *)
Lemma bulkDelete_outcome :
  forall d session transactionIds,
    (exists e,
       bulkDeleteTransactions session transactionIds d
       = (Normal (Failure e), d))
    \/ (exists user d',
          bulkDeleteTransactions session transactionIds d
          = (Normal (Success tt), d')
          /\ current_user session d = Some user
          /\ users d' = users d
          /\ transactions d'
             = filter
                 (fun t => negb (resolves transactionIds (user_id user) t))
                 (transactions d)).
Proof.
  intros d session ids.
  destruct (bulkDeleteTransactions session ids d) as [c d'] eqn:E.
  assert (E' := E). revert E'.
  unfold bulkDeleteTransactions, try_catch.
  destruct (no_userId session).
  { intros H. inversion H. left. eexists. reflexivity. }
  rewrite bind_user_findUnique.
  destruct (find _ (users d)) as [user|].
  2:{ intros H. inversion H. left. eexists. reflexivity. }
  unfold bind at 1. unfold transaction_findMany.
  destruct (List.length _ =? 0)%nat.
  { intros H. inversion H. left. eexists. reflexivity. }
  unfold bind at 1. unfold transaction at 1. unfold bind at 1.
  unfold transaction_deleteMany at 1.
  match goal with
  | |- context [for_of ?o ?body ?d0] =>
      destruct (for_of o body d0) as [[[]|e] d1] eqn:Eloop
  end.
  - unfold bind at 1. unfold revalidatePath at 1, ret at 1.
    unfold bind at 1. rewrite for_of_skip by reflexivity.
    unfold ret. intros H. inversion H. subst c d'. right.
    apply bulkDelete_success_inv in E as (user' & Hu & Husers & Hts).
    exists user', d1. auto.
  - intros H. inversion H. left. eexists. reflexivity.
Qed.

(** X2. A bulk deletion that returns a failure has changed nothing: whatever
    was deleted or added to a balance inside [db.$transaction] before the
    failure is rolled back. *)
Theorem bulkDelete_failure_atomic :
  forall (d d' : Db) (session : Session) (transactionIds : list Id)
         (e : Message),
    bulkDeleteTransactions session transactionIds d
    = (Normal (Failure e), d') ->
    d' = d.
Proof.
  intros d d' session ids e H.
  destruct (bulkDelete_outcome d session ids)
    as [[e' E] | (user & d1 & E & _)]; rewrite E in H.
  - now inversion H.
  - discriminate.
Qed.

Lemma bulkDelete_failure_atomic_witness :
  bulkDeleteTransactions (Some "clerk_alice") ["t1"; "t9"] db_dangling
  = (Normal (Failure (PrismaText RecordNotFound)), db_dangling)
  /\ snd (bulkDeleteTransactions (Some "clerk_alice") ["t1"; "t9"]
            db_dangling) = db_dangling.
Proof.
  split.
  - vm_compute. reflexivity.
  - apply (bulkDelete_failure_atomic db_dangling _ (Some "clerk_alice")
             ["t1"; "t9"] (PrismaText RecordNotFound)).
    vm_compute. reflexivity.
Defined.

(** ** Bulk deletion: a transaction without its account *)









(** ** Bulk deletion: the identifiers as a set *)

Lemma resolves_ext (ids1 ids2 : list Id) (userId : Id) (t : Transaction) :
  (forall i, In i ids1 <-> In i ids2) ->
  resolves ids1 userId t = resolves ids2 userId t.
Proof.
  intros H. unfold resolves. f_equal.
  destruct (existsb (String.eqb (transaction_id t)) ids1) eqn:E1;
    destruct (existsb (String.eqb (transaction_id t)) ids2) eqn:E2;
    try reflexivity.
  - apply existsb_eqb_In, H, existsb_eqb_In in E1. congruence.
  - apply existsb_eqb_In, H, existsb_eqb_In in E2. congruence.
Qed.

(** X4. The outcome of a bulk deletion depends on the set of identifiers
    only: listing an identifier twice or in another order gives the same
    result and the same store. *)
Theorem bulkDelete_ids_as_set :
  forall (d : Db) (session : Session) (ids1 ids2 : list Id),
    (forall i, In i ids1 <-> In i ids2) ->
    bulkDeleteTransactions session ids1 d
    = bulkDeleteTransactions session ids2 d.
Proof.
  intros d session ids1 ids2 H.
  unfold bulkDeleteTransactions, try_catch.
  destruct (no_userId session); [reflexivity |].
  rewrite !bind_user_findUnique.
  destruct (find _ (users d)) as [user|]; [| reflexivity].
  unfold bind at 1. unfold bind at 6. unfold transaction_findMany.
  change (fun t : Transaction =>
            existsb (String.eqb (transaction_id t)) ids1
            && (transaction_userId t =? user_id user))
    with (resolves ids1 (user_id user)).
  change (fun t : Transaction =>
            existsb (String.eqb (transaction_id t)) ids2
            && (transaction_userId t =? user_id user))
    with (resolves ids2 (user_id user)).
  assert (E1 : filter (resolves ids1 (user_id user)) (transactions d)
               = filter (resolves ids2 (user_id user)) (transactions d)).
  { apply filter_ext. intros t. now apply resolves_ext. }
  assert (E2 : filter (fun t => negb (resolves ids1 (user_id user) t))
                 (transactions d)
               = filter (fun t => negb (resolves ids2 (user_id user) t))
                   (transactions d)).
  { apply filter_ext. intros t. f_equal. now apply resolves_ext. }
  rewrite E1.
  destruct (List.length _ =? 0)%nat; [reflexivity |].
  unfold bind at 1. unfold bind at 6.
  unfold transaction, bind at 1, transaction_deleteMany.
  unfold bind at 5.
  rewrite E2. reflexivity.
Qed.

Lemma bulkDelete_ids_as_set_witness :
  bulkDeleteTransactions (Some "clerk_alice") ["t3"; "t1"; "t3"] db_cross
  = bulkDeleteTransactions (Some "clerk_alice") ["t1"; "t3"] db_cross.
Proof.
  apply bulkDelete_ids_as_set. intros i. simpl. tauto.
Defined.

(** ** Bulk deletion: what it leaves alone *)

Lemma not_resolved (ids : list Id) (userId : Id) (t : Transaction) :
  ~ In (transaction_id t) ids \/ transaction_userId t <> userId ->
  resolves ids userId t = false.
Proof.
  unfold resolves. intros [H | H].
  - destruct (existsb (String.eqb (transaction_id t)) ids) eqn:E;
      [| reflexivity].
    apply existsb_eqb_In in E. contradiction.
  - apply String.eqb_neq in H. rewrite H. apply andb_false_r.
Qed.

(** X5. A bulk deletion adds no transaction, and it never deletes a
    transaction whose identifier is not in the list or that belongs to
    another user than the caller. *)
Theorem bulkDelete_keeps_other_transactions :
  forall (d : Db) (session : Session) (transactionIds : list Id)
         (t : Transaction),
    (In t (transactions
             (snd (bulkDeleteTransactions session transactionIds d))) ->
     In t (transactions d))
    /\ (In t (transactions d) ->
        (~ In (transaction_id t) transactionIds
         \/ forall user, current_user session d = Some user ->
                         transaction_userId t <> user_id user) ->
        In t (transactions
                (snd (bulkDeleteTransactions session transactionIds d)))).
Proof.
  intros d session ids t.
  destruct (bulkDelete_outcome d session ids)
    as [[e E] | (user & d' & E & Hu & _ & Hts)]; rewrite E; simpl.
  - auto.
  - rewrite Hts. split.
    + intros H. now apply filter_In in H.
    + intros Ht Hkeep. apply filter_In. split; [exact Ht |].
      apply negb_true_iff, not_resolved.
      destruct Hkeep as [H | H]; [now left | right; now apply H].
Qed.

Lemma bulkDelete_keeps_other_transactions_witness :
  In (mkTransaction "t2" INCOME (num 50) 2 "A" "u1")
    (transactions
       (snd (bulkDeleteTransactions (Some "clerk_alice") ["t1"; "t3"]
               db_cross))).
Proof.
  apply (bulkDelete_keeps_other_transactions db_cross (Some "clerk_alice")
           ["t1"; "t3"]).
  - simpl. right. left. reflexivity.
  - left. simpl. intros [H | [H | []]]; discriminate.
Defined.

Lemma update_first_other (k : Id) (f : Account -> Account)
  (l : list Account) :
  forall a' l' a,
    update_first (fun a => account_id a =? k) f l = Some (a', l') ->
    In a l -> account_id a <> k -> In a l'.
Proof.
  induction l as [|b l IH]; simpl; intros a' l' a E Ha Hne.
  - destruct Ha.
  - destruct (String.eqb_spec (account_id b) k) as [Eb | _].
    + injection E as <- <-. destruct Ha as [<- | Ha]; [contradiction |].
      now right.
    + destruct (update_first _ f l) as [[a0 l0]|]; [| discriminate].
      injection E as <- <-. destruct Ha as [<- | Ha]; [now left |].
      right. now apply (IH a0 l0).
Qed.

Lemma unbalanced_update_first (where_ : Account -> bool) (x : Qc)
  (l : list Account) :
  forall a' l',
    update_first where_ (increment_balance x) l = Some (a', l') ->
    map unbalanced_key l' = map unbalanced_key l.
Proof.
  induction l as [|a l IH]; simpl; intros a' l' E.
  - discriminate.
  - destruct (where_ a).
    + injection E as <- <-. reflexivity.
    + destruct (update_first where_ (increment_balance x) l) as [[a0 l0]|];
        [| discriminate].
      injection E as <- <-. simpl. f_equal. now apply (IH a0 l0).
Qed.

(** The loop over the entries writes balances only, and only of accounts
    that an entry names. *)
Lemma update_loop_accounts (o : BalanceChanges) :
  forall d c d',
    for_of o
      (fun entry =>
         let (accountId, balanceChange) := entry in
         _ <- account_update (fun a => account_id a =? accountId)
                (increment_balance balanceChange) ;;
         ret tt) d = (c, d') ->
    map unbalanced_key (accounts d') = map unbalanced_key (accounts d)
    /\ forall a, In a (accounts d) -> ~ In (account_id a) (map fst o) ->
                 In a (accounts d').
Proof.
  induction o as [|[k v] o IH]; intros d c d'; simpl.
  - unfold ret. intros E. inversion E. auto.
  - unfold bind at 1. unfold bind at 1. unfold account_update.
    destruct (update_first _ _ (accounts d)) as [[a' l']|] eqn:Eup.
    + unfold ret at 1. intros E. apply IH in E as [Hkeys Hrows].
      simpl in Hkeys, Hrows. split.
      * rewrite Hkeys. now apply unbalanced_update_first in Eup.
      * intros a Ha Hnot. apply Hrows.
        -- apply (update_first_other k _ _ a' l' a Eup Ha).
           intros Ek. apply Hnot. now left.
        -- intros Hin. apply Hnot. now right.
    + intros E. inversion E. auto.
Qed.

Lemma bulkDelete_accounts_frame_eq :
  forall d session transactionIds c d',
    bulkDeleteTransactions session transactionIds d = (c, d') ->
    users d' = users d
    /\ map unbalanced_key (accounts d') = map unbalanced_key (accounts d)
    /\ forall a,
         In a (accounts d) ->
         (forall t user,
            In t (transactions d) ->
            transaction_accountId t = account_id a ->
            current_user session d = Some user ->
            resolves transactionIds (user_id user) t = false) ->
         In a (accounts d').
Proof.
  intros d session ids c d'.
  unfold bulkDeleteTransactions, try_catch.
  destruct (no_userId session) eqn:Hs.
  { intros E. inversion E. subst. auto. }
  rewrite bind_user_findUnique.
  destruct (find _ (users d)) as [user|] eqn:Hf.
  2:{ intros E. inversion E. subst. auto. }
  unfold bind at 1. unfold transaction_findMany.
  change (fun t : Transaction =>
            existsb (String.eqb (transaction_id t)) ids
            && (transaction_userId t =? user_id user))
    with (resolves ids (user_id user)).
  destruct (List.length _ =? 0)%nat.
  { intros E. inversion E. subst. auto. }
  unfold bind at 1. unfold transaction at 1. unfold bind at 1.
  unfold transaction_deleteMany at 1.
  match goal with
  | |- context [for_of ?o ?body ?d0] =>
      destruct (for_of o body d0) as [[[]|e] d1] eqn:Eloop
  end.
  2:{ intros E. inversion E. subst. auto. }
  unfold bind at 1. unfold revalidatePath at 1, ret at 1.
  unfold bind at 1. rewrite for_of_skip by reflexivity.
  unfold ret. intros E. inversion E. subst c d'. clear E.
  pose proof (update_loop_frame _ _ _ _ Eloop) as (Hu & _ & _).
  apply update_loop_accounts in Eloop as [Hkeys Hrows].
  simpl in Hu, Hkeys, Hrows.
  split; [exact Hu | split; [exact Hkeys |]].
  intros a Ha Hnone. apply Hrows; [exact Ha |].
  intros Hin. apply reducer_keys in Hin as [[] | Hin].
  apply in_map_iff in Hin as [t [Eid Ht]].
  apply filter_In in Ht as [Ht Hres].
  assert (Hcu : current_user session d = Some user).
  { unfold current_user. now rewrite Hs. }
  rewrite (Hnone t user Ht Eid Hcu) in Hres. discriminate.
Qed.

(** X6. A bulk deletion writes nothing of an account but its balance (same
    identifier, name, type, default flag and owner, row by row), and an
    account that no resolved transaction references keeps its balance too;
    the users are untouched. This holds for every store and every
    outcome. *)
Theorem bulkDelete_accounts_frame :
  forall (d : Db) (session : Session) (transactionIds : list Id),
    users (snd (bulkDeleteTransactions session transactionIds d)) = users d
    /\ map unbalanced_key
         (accounts (snd (bulkDeleteTransactions session transactionIds d)))
       = map unbalanced_key (accounts d)
    /\ forall a,
         In a (accounts d) ->
         (forall t user,
            In t (transactions d) ->
            transaction_accountId t = account_id a ->
            current_user session d = Some user ->
            resolves transactionIds (user_id user) t = false) ->
         In a (accounts (snd (bulkDeleteTransactions session transactionIds
                                d))).
Proof.
  intros d session ids.
  destruct (bulkDeleteTransactions session ids d) as [c d'] eqn:E.
  exact (bulkDelete_accounts_frame_eq d session ids c d' E).
Qed.

Lemma bulkDelete_accounts_frame_witness :
  In (mkAccount "B" "Rainy day" SAVINGS (num 50) false "u1")
    (accounts
       (snd (bulkDeleteTransactions (Some "clerk_alice") ["t1"; "t2"]
               db_cross))).
Proof.
  apply (bulkDelete_accounts_frame db_cross (Some "clerk_alice")
           ["t1"; "t2"]).
  - simpl. right. left. reflexivity.
  - intros t user Ht Eid Hu. simpl in Ht.
    destruct Ht as [<- | [<- | [<- | []]]]; try discriminate.
    reflexivity.
Defined.

(** ** Switching the default account: the successful path *)

Lemma serializeDecimal_account_id (a : Account) :
  serializeDecimal_account a = a.
Proof. now destruct a. Qed.

Lemma set_isDefault_clear (userId : Id) (b : bool) (a : Account) :
  set_isDefault b (clear_default userId a) = set_isDefault b a.
Proof. unfold clear_default. now destruct (_ && _). Qed.

(** With identifiers as a primary key, [update] rewrites the one row that
    its [where] selects by identifier. *)
Lemma update_first_keyed (k : Id) (where_ : Account -> bool)
  (f : Account -> Account) (l : list Account) :
  (forall a, where_ a = true -> account_id a = k) ->
  NoDup (map account_id l) ->
  forall a, In a l -> where_ a = true ->
    update_first where_ f l
    = Some (f a, map (fun x => if where_ x then f x else x) l).
Proof.
  intros Hw. induction l as [|b l IH]; simpl; intros Hnd a Ha Hwa.
  - destruct Ha.
  - inversion Hnd as [|? ? Hnotin Hnd']; subst.
    destruct (where_ b) eqn:Ewb.
    + assert (Hrest : forall x, In x l -> where_ x = false).
      { intros x Hx. destruct (where_ x) eqn:Ex; [| reflexivity].
        exfalso. apply Hnotin. rewrite (Hw b Ewb), <- (Hw x Ex).
        now apply in_map. }
      destruct Ha as [<- | Ha].
      * f_equal. f_equal. f_equal.
        rewrite <- (map_id l) at 1. apply map_ext_in.
        intros x Hx. now rewrite (Hrest x Hx).
      * rewrite (Hrest a Ha) in Hwa. discriminate.
    + destruct Ha as [<- | Ha]; [congruence |].
      now rewrite (IH Hnd' a Ha Hwa).
Qed.

Lemma map_account_id_clear (userId : Id) (l : list Account) :
  map account_id (map (clear_default userId) l) = map account_id l.
Proof.
  rewrite map_map. apply map_ext. intros a.
  now destruct (clear_default_keys userId a).
Qed.

Lemma updateDefault_success :
  forall d session accountId user a,
    primary_key d ->
    current_user session d = Some user ->
    In a (accounts d) ->
    account_id a = accountId ->
    account_userId a = user_id user ->
    updateDefaultAccount session accountId d
    = (Normal (Success (set_isDefault true a)),
       with_accounts
         (map (switch_default accountId (user_id user)) (accounts d)) d).
Proof.
  intros d session accountId user a Hpk Hu Ha Eid Eown.
  apply current_user_some in Hu as [Hs Hf].
  unfold updateDefaultAccount, try_catch. rewrite Hs.
  rewrite bind_user_findUnique, Hf.
  unfold bind at 1. unfold account_updateMany at 1.
  unfold bind at 1. unfold account_update at 1.
  cbn [accounts with_accounts].
  change (fun a : Account =>
            if (account_userId a =? user_id user) && eqb (isDefault a) true
            then set_isDefault false a else a)
    with (clear_default (user_id user)).
  rewrite (update_first_keyed accountId _ _ _)
    with (a := clear_default (user_id user) a).
  - unfold bind, revalidatePath, ret.
    rewrite serializeDecimal_account_id, set_isDefault_clear.
    f_equal. unfold with_accounts. cbn [users transactions connected].
    f_equal. rewrite map_map. apply map_ext. intros x.
    unfold switch_default.
    destruct (clear_default_keys (user_id user) x) as [-> ->].
    destruct (_ && _); [apply set_isDefault_clear | reflexivity].
  - intros x Hx. apply andb_true_iff in Hx as [Hx _].
    now apply String.eqb_eq.
  - rewrite map_account_id_clear. exact Hpk.
  - now apply in_map.
  - destruct (clear_default_keys (user_id user) a) as [-> ->].
    rewrite Eid, Eown, !String.eqb_refl. reflexivity.
Qed.

Lemma switch_default_keys (accountId userId : Id) (a : Account) :
  account_id (switch_default accountId userId a) = account_id a
  /\ account_userId (switch_default accountId userId a) = account_userId a.
Proof.
  unfold switch_default. destruct (_ && _); [auto |].
  apply clear_default_keys.
Qed.

Lemma defaults_after_switch (accountId userId : Id) (a : Account)
  (l : list Account) :
  NoDup (map account_id l) ->
  In a l -> account_id a = accountId -> account_userId a = userId ->
  filter isDefault
    (filter (fun x => account_userId x =? userId)
       (map (switch_default accountId userId) l))
  = [set_isDefault true a].
Proof.
  intros Hnd Ha Eid Eown. induction l as [|b l IH]; simpl.
  - destruct Ha.
  - inversion Hnd as [|? ? Hnotin Hnd']; subst.
    destruct (switch_default_keys (account_id a) (account_userId a) b)
      as [_ ->].
    destruct Ha as [-> | Ha].
    + rewrite String.eqb_refl. simpl.
      unfold switch_default at 1 2. rewrite !String.eqb_refl. simpl.
      f_equal.
      assert (Hrest : forall x, In x l -> account_id x <> account_id a).
      { intros x Hx E. apply Hnotin. rewrite <- E. now apply in_map. }
      clear - Hrest. induction l as [|x l IHl]; simpl; [reflexivity |].
      destruct (switch_default_keys (account_id a) (account_userId a) x)
        as [_ ->].
      assert (Hx : account_id x <> account_id a) by (apply Hrest; now left).
      assert (IHl' := IHl (fun y Hy => Hrest y (or_intror Hy))).
      destruct (account_userId x =? account_userId a) eqn:Eo; [| exact IHl'].
      simpl. unfold switch_default at 1.
      apply String.eqb_neq in Hx. rewrite Hx. simpl.
      unfold clear_default. rewrite Eo. simpl.
      destruct (isDefault x) eqn:Ed; simpl; [exact IHl' |].
      rewrite Ed. exact IHl'.
    + assert (Hb : account_id b <> account_id a).
      { intros E. apply Hnotin. rewrite E. now apply in_map. }
      specialize (IH Hnd' Ha).
      destruct (account_userId b =? account_userId a) eqn:Eo; [| exact IH].
      simpl. unfold switch_default at 1.
      apply String.eqb_neq in Hb. rewrite Hb. simpl.
      unfold clear_default. rewrite Eo. simpl.
      destruct (isDefault b) eqn:Ed; simpl; [exact IH |].
      rewrite Ed. exact IH.
Qed.

(** X7. With identifiers as a primary key, a switch to an account of the
    caller returns [{ success: true, data }] with that account flagged as
    default, and afterwards this account is the one and only default of the
    caller. *)
Theorem updateDefault_switches :
  forall (d : Db) (session : Session) (accountId : Id) (user : User)
         (a : Account),
    primary_key d ->
    current_user session d = Some user ->
    In a (accounts d) ->
    account_id a = accountId ->
    account_userId a = user_id user ->
    fst (updateDefaultAccount session accountId d)
    = Normal (Success (set_isDefault true a))
    /\ defaults_of (user_id user)
         (snd (updateDefaultAccount session accountId d))
       = [set_isDefault true a].
Proof.
  intros d session accountId user a Hpk Hu Ha Eid Eown.
  rewrite (updateDefault_success d session accountId user a Hpk Hu Ha Eid Eown).
  split; [reflexivity |].
  unfold defaults_of, accounts_of. simpl.
  now apply defaults_after_switch.
Qed.

Lemma updateDefault_switches_witness :
  fst (updateDefaultAccount (Some "clerk_alice") "B" db_cross)
  = Normal (Success (mkAccount "B" "Rainy day" SAVINGS (num 50) true "u1"))
  /\ defaults_of "u1"
       (snd (updateDefaultAccount (Some "clerk_alice") "B" db_cross))
     = [mkAccount "B" "Rainy day" SAVINGS (num 50) true "u1"].
Proof.
  apply (updateDefault_switches db_cross (Some "clerk_alice") "B" alice
           (mkAccount "B" "Rainy day" SAVINGS (num 50) false "u1")).
  - exact db_cross_primary_key.
  - reflexivity.
  - simpl. right. left. reflexivity.
  - reflexivity.
  - reflexivity.
Defined.





(** ** Switching the default account: what it leaves alone *)

Lemma unflagged_clear (userId : Id) (l : list Account) :
  map unflagged_key (map (clear_default userId) l) = map unflagged_key l.
Proof.
  rewrite map_map. apply map_ext. intros a.
  unfold clear_default. now destruct (_ && _).
Qed.

Lemma unflagged_update_first (where_ : Account -> bool) (b : bool)
  (l : list Account) :
  forall a' l',
    update_first where_ (set_isDefault b) l = Some (a', l') ->
    map unflagged_key l' = map unflagged_key l.
Proof.
  induction l as [|a l IH]; simpl; intros a' l' E.
  - discriminate.
  - destruct (where_ a).
    + injection E as <- <-. reflexivity.
    + destruct (update_first where_ (set_isDefault b) l) as [[a0 l0]|];
        [| discriminate].
      injection E as <- <-. simpl. f_equal. now apply (IH a0 l0).
Qed.

Lemma updateDefault_frame_eq :
  forall d session accountId c d',
    updateDefaultAccount session accountId d = (c, d') ->
    users d' = users d
    /\ transactions d' = transactions d
    /\ map unflagged_key (accounts d') = map unflagged_key (accounts d)
    /\ forall v,
         (forall user, current_user session d = Some user ->
                       v <> user_id user) ->
         accounts_of v d' = accounts_of v d.
Proof.
  intros d session accountId c d'.
  unfold updateDefaultAccount, try_catch.
  destruct (no_userId session) eqn:Hs.
  { intros E. inversion E. subst. auto. }
  rewrite bind_user_findUnique.
  destruct (find _ (users d)) as [user|] eqn:Hf.
  2:{ intros E. inversion E. subst. auto. }
  assert (Hcu : current_user session d = Some user).
  { unfold current_user. now rewrite Hs. }
  unfold bind at 1. unfold account_updateMany at 1.
  unfold bind at 1. unfold account_update at 1.
  cbn [accounts with_accounts].
  change (fun a : Account =>
            if (account_userId a =? user_id user) && eqb (isDefault a) true
            then set_isDefault false a else a)
    with (clear_default (user_id user)).
  destruct (update_first _ _ _) as [[a' l']|] eqn:Eup.
  - intros E. inversion E. subst c d'. clear E.
    cbn [users transactions accounts with_accounts].
    split; [reflexivity | split; [reflexivity | split]].
    + apply unflagged_update_first in Eup. rewrite Eup.
      apply unflagged_clear.
    + intros v Hv. specialize (Hv user Hcu).
      apply (update_first_sets_default (user_id user)) in Eup
        as (Hother & _ & _).
      * unfold accounts_of. cbn [accounts with_accounts].
        rewrite (Hother v Hv). now apply filter_other_clear.
      * intros x Hx. apply andb_true_iff in Hx as [_ Hx].
        now apply String.eqb_eq.
  - intros E. inversion E. subst c d'. clear E.
    cbn [users transactions accounts with_accounts].
    split; [reflexivity | split; [reflexivity | split]].
    + apply unflagged_clear.
    + intros v Hv. specialize (Hv user Hcu).
      unfold accounts_of. cbn [accounts with_accounts].
      now apply filter_other_clear.
Qed.

(** X9. Whatever it returns, [updateDefaultAccount] writes default flags
    only, and only of the caller's accounts: no user and no transaction
    changes, every account keeps its identifier, name, type, balance and
    owner, and the accounts of every other user are exactly as before. *)
Theorem updateDefault_frame :
  forall (d : Db) (session : Session) (accountId : Id),
    users (snd (updateDefaultAccount session accountId d)) = users d
    /\ transactions (snd (updateDefaultAccount session accountId d))
       = transactions d
    /\ map unflagged_key
         (accounts (snd (updateDefaultAccount session accountId d)))
       = map unflagged_key (accounts d)
    /\ forall v,
         (forall user, current_user session d = Some user ->
                       v <> user_id user) ->
         accounts_of v (snd (updateDefaultAccount session accountId d))
         = accounts_of v d.
Proof.
  intros d session accountId.
  destruct (updateDefaultAccount session accountId d) as [c d'] eqn:E.
  exact (updateDefault_frame_eq d session accountId c d' E).
Qed.

(** Alice switches her default; the accounts of Bob stay as they were. *)
Lemma updateDefault_frame_witness :
  accounts_of "u2"
    (snd (updateDefaultAccount (Some "clerk_alice") "B" db_cross))
  = accounts_of "u2" db_cross.
Proof.
  apply (updateDefault_frame db_cross (Some "clerk_alice") "B").
  intros user Hu. injection Hu as <-. discriminate.
Defined.

(** ** Ordered reads *)

Lemma insert_desc_perm {A} (key : A -> Z) (x : A) (l : list A) :
  Permutation (insert_desc key x l) (x :: l).
Proof.
  induction l as [|y l IH]; simpl.
  - apply Permutation_refl.
  - destruct (key y <=? key x)%Z.
    + apply Permutation_refl.
    + apply perm_trans with (y :: x :: l).
      * now apply perm_skip.
      * apply perm_swap.
Qed.

Lemma orderBy_desc_perm {A} (key : A -> Z) (l : list A) :
  Permutation (orderBy_desc key l) l.
Proof.
  induction l as [|x l IH]; simpl.
  - apply perm_nil.
  - apply perm_trans with (x :: orderBy_desc key l).
    + apply insert_desc_perm.
    + now apply perm_skip.
Qed.

Lemma insert_desc_sorted {A} (key : A -> Z) (x : A) (l : list A) :
  sorted_desc key l -> sorted_desc key (insert_desc key x l).
Proof.
  unfold sorted_desc. induction l as [|y l IH]; simpl; intros Hs.
  - constructor; constructor.
  - destruct (Z.leb_spec (key y) (key x)) as [Hle | Hgt].
    + constructor; [exact Hs |].
      inversion Hs as [|? ? _ Hall]; subst.
      constructor; [exact Hle |].
      eapply Forall_impl; [| exact Hall].
      intros z Hz. simpl in Hz. lia.
    + inversion Hs as [|? ? Hs' Hall]; subst.
      constructor; [now apply IH |].
      apply (Permutation_Forall (Permutation_sym (insert_desc_perm key x l))).
      constructor; [lia | exact Hall].
Qed.

Lemma orderBy_desc_sorted {A} (key : A -> Z) (l : list A) :
  sorted_desc key (orderBy_desc key l).
Proof.
  induction l as [|x l IH]; simpl.
  - constructor.
  - now apply insert_desc_sorted.
Qed.

Lemma orderBy_date_desc_eq (l : list Transaction) :
  orderBy_date_desc l = orderBy_desc date l.
Proof.
  induction l as [|t l IH]; simpl.
  - reflexivity.
  - rewrite IH. generalize (orderBy_desc date l). intros l'.
    induction l' as [|y l' IH']; simpl.
    + reflexivity.
    + now rewrite IH'.
Qed.

Lemma find_keyed (k : Id) (where_ : Account -> bool) (l : list Account) :
  (forall a, where_ a = true -> account_id a = k) ->
  NoDup (map account_id l) ->
  forall a, In a l -> where_ a = true -> find where_ l = Some a.
Proof.
  intros Hw. induction l as [|b l IH]; simpl; intros Hnd a Ha Hwa.
  - destruct Ha.
  - inversion Hnd as [|? ? Hnotin Hnd']; subst.
    destruct (where_ b) eqn:Ewb.
    + destruct Ha as [-> | Ha]; [reflexivity |].
      exfalso. apply Hnotin. rewrite (Hw b Ewb), <- (Hw a Hwa).
      now apply in_map.
    + destruct Ha as [<- | Ha]; [congruence |].
      now apply IH.
Qed.

Lemma map_serializeDecimal_transaction (l : list Transaction) :
  map serializeDecimal_transaction l = l.
Proof.
  rewrite <- (map_id l) at 2. apply map_ext. intros t. now destruct t.
Qed.

(** X10. With identifiers as a primary key, [getAccountWithTransactions]
    on an account of the caller returns that account with exactly the
    transactions that reference it, the most recent first, and their
    number as the count; the store is not written. *)
Theorem getAccount_found :
  forall (d : Db) (session : Session) (accountId : Id) (user : User)
         (a : Account),
    primary_key d ->
    current_user session d = Some user ->
    In a (accounts d) ->
    account_id a = accountId ->
    account_userId a = user_id user ->
    exists ts,
      getAccountWithTransactions session accountId d
      = (Normal (Some (mkAccountWithTransactions a ts (List.length ts))), d)
      /\ Permutation ts (transactions_of accountId (transactions d))
      /\ sorted_desc date ts.
Proof.
  intros d session accountId user a Hpk Hu Ha Eid Eown.
  apply current_user_some in Hu as [Hs Hf].
  exists (orderBy_desc date (transactions_of accountId (transactions d))).
  split; [| split].
  - unfold getAccountWithTransactions, try_catch. rewrite Hs.
    rewrite bind_user_findUnique, Hf.
    unfold bind, account_findUnique_include.
    rewrite (find_keyed accountId _ (accounts d)) with (a := a); auto.
    + unfold ret. cbn [awt_account awt_transactions awt_count].
      rewrite serializeDecimal_account_id, map_serializeDecimal_transaction.
      rewrite orderBy_date_desc_eq, Eid.
      fold (transactions_of accountId (transactions d)).
      rewrite (Permutation_length (orderBy_desc_perm date _)).
      reflexivity.
    + intros x Hx. apply andb_true_iff in Hx as [Hx _].
      now apply String.eqb_eq.
    + rewrite Eid, Eown, !String.eqb_refl. reflexivity.
  - apply orderBy_desc_perm.
  - apply orderBy_desc_sorted.
Qed.

Lemma getAccount_found_witness :
  exists ts,
    getAccountWithTransactions (Some "clerk_alice") "A" db_cross
    = (Normal
         (Some
            (mkAccountWithTransactions
               (mkAccount "A" "Main" CURRENT (num 200) true "u1") ts
               (List.length ts))), db_cross)
    /\ Permutation ts (transactions_of "A" (transactions db_cross))
    /\ sorted_desc date ts.
Proof.
  apply (getAccount_found db_cross (Some "clerk_alice") "A" alice
           (mkAccount "A" "Main" CURRENT (num 200) true "u1")).
  - exact db_cross_primary_key.
  - reflexivity.
  - simpl. left. reflexivity.
  - reflexivity.
  - reflexivity.
Defined.

(** [getAccountWithTransactions] never writes. *)
Lemma getAccount_reads_only :
  forall (d : Db) (session : Session) (accountId : Id),
    snd (getAccountWithTransactions session accountId d) = d.
Proof.
  intros d session accountId.
  unfold getAccountWithTransactions, try_catch.
  destruct (no_userId session); [reflexivity |].
  rewrite bind_user_findUnique.
  destruct (find _ (users d)); [| reflexivity].
  unfold bind, account_findUnique_include.
  destruct (find _ (accounts d)); reflexivity.
Qed.

(** ** Creating an account: every way the call ends *)

Lemma existsb_id_updateMany (k : Id) (where_ : Account -> bool) (b : bool)
  (l : list Account) :
  existsb (fun a => account_id a =? k)
    (map (fun a => if where_ a then set_isDefault b a else a) l)
  = existsb (fun a => account_id a =? k) l.
Proof.
  induction l as [|a l IH]; simpl.
  - reflexivity.
  - rewrite IH. now destruct (where_ a).
Qed.

Ltac refused_early m :=
  intros E; inversion E; subst; repeat split; try reflexivity;
  left; exists m; repeat split; discriminate.

Ltac failed_insert user Hcu :=
  intros E; inversion E; subst; repeat split; try reflexivity;
  right; left; exists user; split; [exact Hcu |]; split; [reflexivity |];
  first [left; reflexivity | right; reflexivity].

Lemma createAccount_outcome :
  forall d session decision newId data c d',
    Dashboard.createAccount session decision newId data d = (c, d') ->
    users d' = users d
    /\ transactions d' = transactions d
    /\ connected d' = connected d
    /\ create_outcome Dashboard.serializeTransaction session newId data d c
         (accounts d').
Proof.
  intros d session decision newId data c d'.
  destruct (existsb (fun a => account_id a =? newId) (accounts d)) eqn:Ex.
  2:{ destruct (current_user session d) as [user|] eqn:Hcu.
      - destruct decision.
        + destruct (parseFloat (data_balance data)) as [|neg|q] eqn:Hq.
          * rewrite (createAccount_rejects_NaN d session newId data user
                       Hcu Hq).
            refused_early "Invalid balance amount".
          * apply current_user_some in Hcu as Hcu'. destruct Hcu' as [Hs Hf].
            unfold Dashboard.createAccount, try_catch. rewrite Hs.
            change (isDenied Allowed) with false. cbv iota.
            rewrite bind_user_findUnique, Hf, Hq.
            change (isNaN _) with false. cbv iota.
            rewrite bind_account_findMany.
            unfold bind, account_updateMany, account_create, ret.
            destruct (List.length _ =? 0)%nat; [failed_insert user Hcu |].
            destruct (data_isDefault data); failed_insert user Hcu.
          * apply existsb_fresh in Ex.
            rewrite (createAccount_inserts d session newId data user q
                       Hcu Hq Ex).
            intros E. inversion E. subst. repeat split; try reflexivity.
            right. right. exists user, q. auto.
        + unfold current_user in Hcu.
          unfold Dashboard.createAccount, try_catch.
          destruct (no_userId session); [discriminate |].
          refused_early "Too many requests. Try again later.".
        + unfold current_user in Hcu.
          unfold Dashboard.createAccount, try_catch.
          destruct (no_userId session); [discriminate |].
          refused_early "Request blocked".
      - unfold current_user in Hcu.
        unfold Dashboard.createAccount, try_catch.
        destruct (no_userId session); [refused_early "Unauthorized" |].
        destruct decision;
          [| refused_early "Too many requests. Try again later."
           | refused_early "Request blocked"].
        change (isDenied Allowed) with false. cbv iota.
        rewrite bind_user_findUnique, Hcu.
        refused_early "User not found". }
  unfold Dashboard.createAccount, try_catch.
  destruct (no_userId session) eqn:Hs; [refused_early "Unauthorized" |].
  destruct decision;
    [| refused_early "Too many requests. Try again later."
     | refused_early "Request blocked"].
  change (isDenied Allowed) with false. cbv iota.
  rewrite bind_user_findUnique.
  destruct (find _ (users d)) as [user|] eqn:Hf;
    [| refused_early "User not found"].
  assert (Hcu : current_user session d = Some user).
  { unfold current_user. now rewrite Hs. }
  destruct (parseFloat (data_balance data)) as [|neg|q];
    [refused_early "Invalid balance amount" | |];
    change (isNaN _) with false; cbv iota;
    rewrite bind_account_findMany;
    unfold bind, account_updateMany, account_create, ret;
    cbn [accounts with_accounts];
    rewrite ?existsb_id_updateMany, ?Ex;
    (destruct (List.length _ =? 0)%nat;
     [| destruct (data_isDefault data)]);
    cbn [accounts with_accounts];
    rewrite ?existsb_id_updateMany, ?Ex;
    failed_insert user Hcu.
Qed.

Lemma createAccountConn_outcome :
  forall d session decision newId data c d',
    DashboardConn.createAccount session decision newId data d = (c, d') ->
    users d' = users d
    /\ transactions d' = transactions d
    /\ connected d' = false
    /\ create_outcome DashboardConn.serializeTransaction session newId data d
         c (accounts d').
Proof.
  intros d session decision newId data c d'.
  unfold DashboardConn.createAccount, try_finally, try_catch.
  destruct (no_userId session) eqn:Hs; [refused_early "Unauthorized" |].
  rewrite bind_connect.
  destruct decision;
    [| refused_early "Too many requests. Try again later."
     | refused_early "Request blocked"].
  change (isDenied Allowed) with false. cbv iota.
  rewrite bind_user_findUnique.
  change (users (with_connected true d)) with (users d).
  destruct (find _ (users d)) as [user|] eqn:Hf;
    [| refused_early "User not found"].
  assert (Hcu : current_user session d = Some user).
  { unfold current_user. now rewrite Hs. }
  destruct (parseFloat (data_balance data)) as [|neg|q] eqn:Hq;
    [refused_early "Invalid balance amount" | |];
    change (isNaN _) with false; cbv iota.
  - destruct (false || lt_zero (Infinity neg));
      [refused_early "Invalid balance amount" |].
    rewrite bind_account_findMany.
    unfold bind, account_updateMany, account_create, ret, db_disconnect.
    destruct (List.length _ =? 0)%nat; [| destruct (data_isDefault data)];
      cbn [accounts with_accounts with_connected];
      failed_insert user Hcu.
  - change (false || lt_zero (Finite q)) with (Qc_ltb q (Q2Qc 0)).
    destruct (Qc_ltb q (Q2Qc 0)) eqn:Hpos;
      [refused_early "Invalid balance amount" |].
    destruct (existsb (fun a => account_id a =? newId) (accounts d)) eqn:Ex.
    + rewrite bind_account_findMany.
      unfold bind, account_updateMany, account_create, ret, db_disconnect.
      destruct (List.length _ =? 0)%nat; [| destruct (data_isDefault data)];
        cbn [accounts with_accounts with_connected];
        rewrite ?existsb_id_updateMany, ?Ex;
        failed_insert user Hcu.
    + apply existsb_fresh in Ex.
      pose proof (createAccountConn_inserts d session newId data user q
                    Hcu Hq Hpos Ex) as E.
      unfold DashboardConn.createAccount, try_finally, try_catch in E.
      rewrite Hs, bind_connect in E.
      change (isDenied Allowed) with false in E. cbv iota in E.
      rewrite bind_user_findUnique in E.
      change (users (with_connected true d)) with (users d) in E.
      rewrite Hf, Hq in E.
      change (isNaN _) with false in E. cbv iota in E.
      change (false || lt_zero (Finite q)) with (Qc_ltb q (Q2Qc 0)) in E.
      rewrite Hpos in E. rewrite E.
      intros E'. inversion E'. subst. repeat split; try reflexivity.
      right. right. exists user, q. auto.
Qed.

(** X11. A call of [createAccount] that is refused before the insert
    (caller without a user, request denied by the abuse guard, balance that
    does not pass the validation of the copy) writes no row: when the
    failure message is not "Failed to create account", the account table is
    as it was. Both copies. *)
Theorem createAccount_refused_writes_nothing :
  forall (d : Db) (session : Session) (decision : Decision) (newId : Id)
         (data : AccountInput) (m : string),
    m <> "Failed to create account" ->
    (fst (Dashboard.createAccount session decision newId data d)
     = Normal (Failure (Text m)) ->
     snd (Dashboard.createAccount session decision newId data d) = d)
    /\ (fst (DashboardConn.createAccount session decision newId data d)
        = Normal (Failure (Text m)) ->
        snd (DashboardConn.createAccount session decision newId data d)
        = with_connected false d).
Proof.
  intros d session decision newId data m Hm. split.
  - destruct (Dashboard.createAccount session decision newId data d)
      as [c d'] eqn:E.
    destruct (createAccount_outcome _ _ _ _ _ _ _ E)
      as (Hu & Ht & Hc & [(m' & Ec & _ & Hrows)
                         | [(user & _ & Ec & _)
                           | (user & q & _ & _ & _ & Ec & _)]]);
      simpl; intros Hfst; rewrite Ec in Hfst; try discriminate.
    + destruct d, d'; simpl in *. congruence.
    + injection Hfst as <-. contradiction.
  - destruct (DashboardConn.createAccount session decision newId data d)
      as [c d'] eqn:E.
    destruct (createAccountConn_outcome _ _ _ _ _ _ _ E)
      as (Hu & Ht & Hc & [(m' & Ec & _ & Hrows)
                         | [(user & _ & Ec & _)
                           | (user & q & _ & _ & _ & Ec & _)]]);
      simpl; intros Hfst; rewrite Ec in Hfst; try discriminate.
    + destruct d, d'; unfold with_connected; simpl in *. congruence.
    + injection Hfst as <-. contradiction.
Qed.

Lemma createAccount_refused_writes_nothing_witness :
  snd (Dashboard.createAccount (Some "clerk_alice") DeniedRateLimit "C"
         (mkAccountInput "Cash" CURRENT "10" true) db_cross) = db_cross
  /\ snd (DashboardConn.createAccount (Some "clerk_alice") Allowed "C"
            (mkAccountInput "Cash" CURRENT "-10" true) db_cross)
     = with_connected false db_cross.
Proof.
  split.
  - apply (createAccount_refused_writes_nothing db_cross
             (Some "clerk_alice") DeniedRateLimit "C"
             (mkAccountInput "Cash" CURRENT "10" true)
             "Too many requests. Try again later.").
    + discriminate.
    + reflexivity.
  - apply (createAccount_refused_writes_nothing db_cross
             (Some "clerk_alice") Allowed "C"
             (mkAccountInput "Cash" CURRENT "-10" true)
             "Invalid balance amount").
    + discriminate.
    + reflexivity.
Defined.

Lemma accounts_of_after_create_other (a : Account) (d : Db) (v : Id) :
  v <> account_userId a ->
  filter (fun x => account_userId x =? v) (accounts_after_create a d)
  = filter (fun x => account_userId x =? v) (accounts d).
Proof.
  intros Hv. unfold accounts_after_create. rewrite filter_app. simpl.
  assert (E : (account_userId a =? v) = false).
  { apply String.eqb_neq. congruence. }
  rewrite E, app_nil_r.
  destruct (isDefault a); [now apply filter_other_clear | reflexivity].
Qed.

Lemma create_outcome_other (serialize : Account -> SerializedAccount)
  session newId data d c rows' v :
  create_outcome serialize session newId data d c rows' ->
  (forall user, current_user session d = Some user -> v <> user_id user) ->
  filter (fun x => account_userId x =? v) rows'
  = filter (fun x => account_userId x =? v) (accounts d).
Proof.
  intros [(m & _ & _ & ->)
         | [(user & Hcu & _ & [-> | ->])
           | (user & q & Hcu & _ & _ & _ & ->)]] Hv;
    try reflexivity.
  - apply filter_other_clear. now apply Hv.
  - apply accounts_of_after_create_other. simpl. now apply Hv.
Qed.

(** X12. Whatever it returns, [createAccount] writes only accounts of the
    caller: the users and the transactions are untouched, and the accounts
    of every other user are exactly as before. Both copies. *)
Theorem createAccount_isolation :
  forall (d : Db) (session : Session) (decision : Decision) (newId : Id)
         (data : AccountInput),
    (users (snd (Dashboard.createAccount session decision newId data d))
     = users d
     /\ transactions
          (snd (Dashboard.createAccount session decision newId data d))
        = transactions d
     /\ users (snd (DashboardConn.createAccount session decision newId data d))
        = users d
     /\ transactions
          (snd (DashboardConn.createAccount session decision newId data d))
        = transactions d)
    /\ forall v,
         (forall user, current_user session d = Some user ->
                       v <> user_id user) ->
         accounts_of v
           (snd (Dashboard.createAccount session decision newId data d))
         = accounts_of v d
         /\ accounts_of v
              (snd (DashboardConn.createAccount session decision newId data d))
            = accounts_of v d.
Proof.
  intros d session decision newId data.
  destruct (Dashboard.createAccount session decision newId data d)
    as [c1 d1] eqn:E1.
  destruct (DashboardConn.createAccount session decision newId data d)
    as [c2 d2] eqn:E2.
  destruct (createAccount_outcome _ _ _ _ _ _ _ E1) as (Hu1 & Ht1 & _ & Ho1).
  destruct (createAccountConn_outcome _ _ _ _ _ _ _ E2)
    as (Hu2 & Ht2 & _ & Ho2).
  simpl. split; [auto |].
  intros v Hv. unfold accounts_of. split.
  - exact (create_outcome_other _ _ _ _ _ _ _ _ Ho1 Hv).
  - exact (create_outcome_other _ _ _ _ _ _ _ _ Ho2 Hv).
Qed.

(** Alice opens an account as her new default: the accounts of Bob stay as
    they were. *)
Lemma createAccount_isolation_witness :
  accounts_of "u2"
    (snd (Dashboard.createAccount (Some "clerk_alice") Allowed "C"
            (mkAccountInput "Cash" CURRENT "10" true) db_cross))
  = accounts_of "u2" db_cross
  /\ accounts_of "u2"
       (snd (DashboardConn.createAccount (Some "clerk_alice") Allowed "C"
               (mkAccountInput "Cash" CURRENT "10" true) db_cross))
     = accounts_of "u2" db_cross.
Proof.
  apply (createAccount_isolation db_cross (Some "clerk_alice") Allowed "C"
           (mkAccountInput "Cash" CURRENT "10" true)).
  intros user Hu. injection Hu as <-. discriminate.
Defined.

Lemma create_outcome_length (serialize : Account -> SerializedAccount)
  session newId data d c rows' :
  create_outcome serialize session newId data d c rows' ->
  List.length rows'
  = (List.length (accounts d)
     + match c with Normal (Success _) => 1 | _ => 0 end)%nat.
Proof.
  intros [(m & -> & _ & ->)
         | [(user & _ & -> & [-> | ->])
           | (user & q & _ & _ & _ & -> & ->)]];
    rewrite ?length_map; try lia.
  unfold accounts_after_create. rewrite length_app. simpl.
  destruct (shouldBeDefault _ _ _); rewrite ?length_map; reflexivity.
Qed.

(** X13. [createAccount] adds exactly one row to the account table when it
    returns [{ success: true }] and none when it returns a failure. Both
    copies. *)
Theorem createAccount_row_count :
  forall (d : Db) (session : Session) (decision : Decision) (newId : Id)
         (data : AccountInput),
    List.length
      (accounts (snd (Dashboard.createAccount session decision newId data d)))
    = (List.length (accounts d)
       + match fst (Dashboard.createAccount session decision newId data d)
         with
         | Normal (Success _) => 1
         | _ => 0
         end)%nat
    /\ List.length
         (accounts
            (snd (DashboardConn.createAccount session decision newId data d)))
       = (List.length (accounts d)
          + match
              fst (DashboardConn.createAccount session decision newId data d)
            with
            | Normal (Success _) => 1
            | _ => 0
            end)%nat.
Proof.
  intros d session decision newId data.
  destruct (Dashboard.createAccount session decision newId data d)
    as [c1 d1] eqn:E1.
  destruct (DashboardConn.createAccount session decision newId data d)
    as [c2 d2] eqn:E2.
  destruct (createAccount_outcome _ _ _ _ _ _ _ E1) as (_ & _ & _ & Ho1).
  destruct (createAccountConn_outcome _ _ _ _ _ _ _ E2) as (_ & _ & _ & Ho2).
  simpl. split.
  - exact (create_outcome_length _ _ _ _ _ _ _ Ho1).
  - exact (create_outcome_length _ _ _ _ _ _ _ Ho2).
Qed.



(** ** The lists of the dashboard *)

Lemma bind_account_findMany_count {B} (createdAt : Account -> Z)
  (where_ : Account -> bool) (k : list (Account * nat) -> Action B)
  (d : Db) :
  bind (account_findMany_count createdAt where_) k d
  = k (map (fun a => (a, transaction_count d a))
         (orderBy_desc createdAt (filter where_ (accounts d)))) d.
Proof. reflexivity. Qed.

Lemma bind_transaction_findMany_by_date {B} (where_ : Transaction -> bool)
  (k : list Transaction -> Action B) (d : Db) :
  bind (transaction_findMany_by_date where_) k d
  = k (orderBy_desc date (filter where_ (transactions d))) d.
Proof. reflexivity. Qed.

Lemma getUserAccounts_eq :
  forall createdAt d session,
    Dashboard.getUserAccounts createdAt session d
    = (Normal
         match current_user session d with
         | None => []
         | Some user =>
             map (fun a =>
                    (Dashboard.serializeTransaction a, transaction_count d a))
               (orderBy_desc createdAt (accounts_of (user_id user) d))
         end, d).
Proof.
  intros createdAt d session.
  unfold Dashboard.getUserAccounts, try_catch, current_user.
  destruct (no_userId session); [reflexivity |].
  rewrite bind_user_findUnique.
  destruct (find _ (users d)) as [user|]; [| reflexivity].
  rewrite bind_account_findMany_count. unfold ret.
  rewrite map_map. reflexivity.
Qed.

Lemma getDashboardData_eq :
  forall d session,
    Dashboard.getDashboardData session d
    = (Normal
         match current_user session d with
         | None => []
         | Some user =>
             map Dashboard.serializeTransaction_row
               (orderBy_desc date
                  (filter (fun t => transaction_userId t =? user_id user)
                     (transactions d)))
         end, d).
Proof.
  intros d session.
  unfold Dashboard.getDashboardData, try_catch, current_user.
  destruct (no_userId session); [reflexivity |].
  rewrite bind_user_findUnique.
  destruct (find _ (users d)) as [user|]; [| reflexivity].
  rewrite bind_transaction_findMany_by_date. reflexivity.
Qed.

(** X15. [getUserAccounts] writes nothing and never fails: it returns the
    empty list when the caller resolves to no user, and otherwise exactly
    the accounts of the caller (each once, none of another user), the most
    recently created first, each serialised and with the number of
    transactions that reference it. *)
Theorem getUserAccounts_lists_own_accounts :
  forall (createdAt : Account -> Z) (d : Db) (session : Session),
    snd (Dashboard.getUserAccounts createdAt session d) = d
    /\ match current_user session d with
       | None => fst (Dashboard.getUserAccounts createdAt session d)
                 = Normal []
       | Some user =>
           exists rows,
             fst (Dashboard.getUserAccounts createdAt session d)
             = Normal
                 (map (fun a =>
                         (Dashboard.serializeTransaction a,
                          transaction_count d a)) rows)
             /\ Permutation rows (accounts_of (user_id user) d)
             /\ sorted_desc createdAt rows
       end.
Proof.
  intros createdAt d session. rewrite getUserAccounts_eq.
  split; [reflexivity |].
  destruct (current_user session d) as [user|]; [| reflexivity].
  exists (orderBy_desc createdAt (accounts_of (user_id user) d)).
  split; [reflexivity | split].
  - apply orderBy_desc_perm.
  - apply orderBy_desc_sorted.
Qed.

(** X16. [getDashboardData] writes nothing and never fails: it returns the
    empty list when the caller resolves to no user, and otherwise exactly
    the transactions of the caller (each once, none of another user), the
    most recent first, each serialised. *)
Theorem getDashboardData_lists_own_transactions :
  forall (d : Db) (session : Session),
    snd (Dashboard.getDashboardData session d) = d
    /\ match current_user session d with
       | None => fst (Dashboard.getDashboardData session d) = Normal []
       | Some user =>
           exists rows,
             fst (Dashboard.getDashboardData session d)
             = Normal (map Dashboard.serializeTransaction_row rows)
             /\ Permutation rows
                  (filter (fun t => transaction_userId t =? user_id user)
                     (transactions d))
             /\ sorted_desc date rows
       end.
Proof.
  intros d session. rewrite getDashboardData_eq.
  split; [reflexivity |].
  destruct (current_user session d) as [user|]; [| reflexivity].
  eexists. split; [reflexivity | split].
  - apply orderBy_desc_perm.
  - apply orderBy_desc_sorted.
Qed.

(** X17. The two copies of the reads return the same lists up to the
    fallback of [serializeTransaction]: the second copy has [amount: 0] on
    each account where the first has [amount: undefined], and [balance: 0]
    on each transaction where the first has [balance: undefined]. The first
    copy leaves the store as it was, the second with the connection
    closed. *)
Theorem dashboard_reads_copies_agree :
  forall (createdAt : Account -> Z) (d : Db) (session : Session),
    (exists l,
       Dashboard.getUserAccounts createdAt session d = (Normal l, d)
       /\ DashboardConn.getUserAccounts createdAt session d
          = (Normal (map (fun x => (with_amount_zero (fst x), snd x)) l),
             with_connected false d))
    /\ (exists l,
          Dashboard.getDashboardData session d = (Normal l, d)
          /\ DashboardConn.getDashboardData session d
             = (Normal (map with_balance_zero l), with_connected false d)).
Proof.
  intros createdAt d session. split.
  - eexists. split; [apply getUserAccounts_eq |].
    unfold DashboardConn.getUserAccounts, try_finally, try_catch,
      current_user.
    destruct (no_userId session); [reflexivity |].
    rewrite bind_connect, bind_user_findUnique.
    change (users (with_connected true d)) with (users d).
    destruct (find _ (users d)) as [user|]; [| reflexivity].
    rewrite bind_account_findMany_count. unfold ret, db_disconnect.
    rewrite !map_map. reflexivity.
  - eexists. split; [apply getDashboardData_eq |].
    unfold DashboardConn.getDashboardData, try_finally, try_catch,
      current_user.
    destruct (no_userId session); [reflexivity |].
    rewrite bind_connect, bind_user_findUnique.
    change (users (with_connected true d)) with (users d).
    destruct (find _ (users d)) as [user|]; [| reflexivity].
    rewrite bind_transaction_findMany_by_date. unfold ret, db_disconnect.
    rewrite !map_map. reflexivity.
Qed.

(** ** Creating, then reading *)





(** ** Deleting, then reading *)

(** X19. After a successful bulk deletion the caller's [getDashboardData]
    lists exactly the transactions it listed before whose identifier is not
    in the deleted set. *)
Theorem deleted_transactions_not_listed :
  forall (d d1 : Db) (session : Session) (transactionIds : list Id)
         (l l1 : list SerializedTransaction),
    bulkDeleteTransactions session transactionIds d
    = (Normal (Success tt), d1) ->
    fst (Dashboard.getDashboardData session d) = Normal l ->
    fst (Dashboard.getDashboardData session d1) = Normal l1 ->
    forall x, In x l1 <-> (In x l /\ ~ In (st_id x) transactionIds).
Proof.
  intros d d1 session ids l l1 Hdel Hl Hl1 x.
  apply bulkDelete_success_inv in Hdel as (user & Hu & Husers & Hts).
  assert (Hu1 : current_user session d1 = Some user).
  { unfold current_user in *. now rewrite Husers. }
  rewrite getDashboardData_eq, Hu in Hl.
  rewrite getDashboardData_eq, Hu1, Hts in Hl1.
  simpl in Hl, Hl1. injection Hl as <-. injection Hl1 as <-.
  rewrite !in_map_iff. split.
  - intros [t [<- Ht]].
    apply (Permutation_in _ (orderBy_desc_perm _ _)) in Ht.
    apply filter_In in Ht as [Ht Hown].
    apply filter_In in Ht as [Ht Hres].
    split.
    + exists t. split; [reflexivity |].
      apply (Permutation_in _ (Permutation_sym (orderBy_desc_perm _ _))).
      apply filter_In. auto.
    + simpl. intros Hin. apply negb_true_iff in Hres.
      unfold resolves in Hres. rewrite Hown, andb_true_r in Hres.
      apply existsb_eqb_In in Hin. congruence.
  - intros [[t [<- Ht]] Hnot]. exists t. split; [reflexivity |].
    apply (Permutation_in _ (orderBy_desc_perm _ _)) in Ht.
    apply filter_In in Ht as [Ht Hown].
    apply (Permutation_in _ (Permutation_sym (orderBy_desc_perm _ _))).
    apply filter_In. split; [| exact Hown].
    apply filter_In. split; [exact Ht |].
    apply negb_true_iff, not_resolved. left. exact Hnot.
Qed.

Lemma deleted_transactions_not_listed_witness :
  let x :=
    Dashboard.serializeTransaction_row
      (mkTransaction "t2" INCOME (num 50) 2 "A" "u1") in
  In x (map Dashboard.serializeTransaction_row
          [mkTransaction "t2" INCOME (num 50) 2 "A" "u1"])
  <-> (In x (map Dashboard.serializeTransaction_row
               [mkTransaction "t3" EXPENSE (num 20) 3 "B" "u1";
                mkTransaction "t2" INCOME (num 50) 2 "A" "u1";
                mkTransaction "t1" EXPENSE (num 30) 1 "A" "u1"])
       /\ ~ In (st_id x) ["t1"; "t3"]).
Proof.
  intros x.
  apply (deleted_transactions_not_listed db_cross
           (snd (bulkDeleteTransactions (Some "clerk_alice") ["t1"; "t3"]
                   db_cross))
           (Some "clerk_alice") ["t1"; "t3"]).
  - vm_compute. reflexivity.
  - vm_compute. reflexivity.
  - vm_compute. reflexivity.
Defined.

(** ** The default account the dashboard page finds *)

Lemma find_map {A B} (p : B -> bool) (g : A -> B) (l : list A) :
  find p (map g l) = option_map g (find (fun x => p (g x)) l).
Proof.
  induction l as [|x l IH]; simpl.
  - reflexivity.
  - destruct (p (g x)); [reflexivity | exact IH].
Qed.

Lemma find_hd_filter {A} (p : A -> bool) (l : list A) :
  find p l = hd_error (filter p l).
Proof.
  induction l as [|x l IH]; simpl.
  - reflexivity.
  - destruct (p x); [reflexivity | exact IH].
Qed.

Lemma filter_perm {A} (p : A -> bool) (l l' : list A) :
  Permutation l l' -> Permutation (filter p l) (filter p l').
Proof.
  induction 1 as [| x l l' H IH | x y l | l l' l'' H1 IH1 H2 IH2]; simpl.
  - apply perm_nil.
  - destruct (p x); [now apply perm_skip | exact IH].
  - destruct (p x), (p y);
      try apply Permutation_refl; apply perm_swap.
  - now apply perm_trans with (filter p l').
Qed.

(** The default the page finds among the accounts of [userId]. *)
Lemma defaultAccount_of_listing (createdAt : Account -> Z) (d : Db)
  (session : Session) (user : User) :
  current_user session d = Some user ->
  exists l,
    fst (Dashboard.getUserAccounts createdAt session d) = Normal l
    /\ DashboardPage.defaultAccount l
       = option_map
           (fun a => (Dashboard.serializeTransaction a, transaction_count d a))
           (hd_error
              (filter isDefault
                 (orderBy_desc createdAt (accounts_of (user_id user) d)))).
Proof.
  intros Hu. rewrite getUserAccounts_eq, Hu.
  eexists. split; [reflexivity |].
  unfold DashboardPage.defaultAccount.
  rewrite find_map. cbn [fst Dashboard.serializeTransaction s_isDefault].
  now rewrite find_hd_filter.
Qed.

(** X20. After a successful switch to an account of the caller (identifiers
    being a primary key), the default account the dashboard page finds in
    the list of [getUserAccounts] is that account, whatever the order of
    creation. *)
Theorem dashboard_default_after_switch :
  forall (createdAt : Account -> Z) (d : Db) (session : Session)
         (accountId : Id) (user : User) (a : Account),
    primary_key d ->
    current_user session d = Some user ->
    In a (accounts d) ->
    account_id a = accountId ->
    account_userId a = user_id user ->
    exists l,
      fst (Dashboard.getUserAccounts createdAt session
             (snd (updateDefaultAccount session accountId d)))
      = Normal l
      /\ DashboardPage.defaultAccount l
         = Some (Dashboard.serializeTransaction (set_isDefault true a),
                 transaction_count d a).
Proof.
  intros createdAt d session accountId user a Hpk Hu Ha Eid Eown.
  rewrite (updateDefault_success d session accountId user a Hpk Hu Ha Eid Eown).
  cbn [snd].
  set (d' := with_accounts
               (map (switch_default accountId (user_id user)) (accounts d)) d).
  destruct (defaultAccount_of_listing createdAt d' session user Hu)
    as [l [Hl Hdef]].
  exists l. split; [exact Hl |]. rewrite Hdef.
  assert (Hf : filter isDefault
                 (orderBy_desc createdAt (accounts_of (user_id user) d'))
               = [set_isDefault true a]).
  { apply Permutation_length_1_inv.
    apply Permutation_sym.
    rewrite <- (defaults_after_switch accountId (user_id user) a (accounts d)
                  Hpk Ha Eid Eown).
    apply filter_perm, orderBy_desc_perm. }
  rewrite Hf. reflexivity.
Qed.

Lemma dashboard_default_after_switch_witness :
  exists l,
    fst (Dashboard.getUserAccounts (fun _ => 0%Z) (Some "clerk_alice")
           (snd (updateDefaultAccount (Some "clerk_alice") "B" db_cross)))
    = Normal l
    /\ DashboardPage.defaultAccount l
       = Some (Dashboard.serializeTransaction
                 (mkAccount "B" "Rainy day" SAVINGS (num 50) true "u1"),
               1%nat).
Proof.
  apply (dashboard_default_after_switch (fun _ => 0%Z) db_cross
           (Some "clerk_alice") "B" alice
           (mkAccount "B" "Rainy day" SAVINGS (num 50) false "u1")).
  - exact db_cross_primary_key.
  - reflexivity.
  - simpl. right. left. reflexivity.
  - reflexivity.
  - reflexivity.
Defined.

(** X21. After a switch to an identifier that resolves to no account of the
    caller, the dashboard page finds no default account in the list of
    [getUserAccounts], whatever accounts the caller has. *)
Theorem dashboard_no_default_after_failed_switch :
  forall (createdAt : Account -> Z) (d : Db) (session : Session)
         (accountId : Id) (user : User),
    current_user session d = Some user ->
    (forall a, In a (accounts d) -> account_id a = accountId ->
               account_userId a <> user_id user) ->
    exists l,
      fst (Dashboard.getUserAccounts createdAt session
             (snd (updateDefaultAccount session accountId d)))
      = Normal l
      /\ DashboardPage.defaultAccount l = None.
Proof.
  intros createdAt d session accountId user Hu Hnot.
  rewrite (updateDefault_not_found d session accountId user Hu Hnot).
  cbn [snd].
  set (d' := with_accounts (map (clear_default (user_id user)) (accounts d)) d).
  destruct (defaultAccount_of_listing createdAt d' session user Hu)
    as [l [Hl Hdef]].
  exists l. split; [exact Hl |]. rewrite Hdef.
  assert (Hf : filter isDefault
                 (orderBy_desc createdAt (accounts_of (user_id user) d'))
               = []).
  { apply Permutation_nil. apply Permutation_sym.
    rewrite <- (no_default_after_clear (user_id user) (accounts d)).
    apply filter_perm, orderBy_desc_perm. }
  rewrite Hf. reflexivity.
Qed.

Lemma dashboard_no_default_after_failed_switch_witness :
  exists l,
    fst (Dashboard.getUserAccounts (fun _ => 0%Z) (Some "clerk_alice")
           (snd (updateDefaultAccount (Some "clerk_alice") "missing"
                   db_cross)))
    = Normal l
    /\ DashboardPage.defaultAccount l = None.
Proof.
  apply (dashboard_no_default_after_failed_switch (fun _ => 0%Z) db_cross
           (Some "clerk_alice") "missing" alice).
  - reflexivity.
  - intros a Ha Eid. simpl in Ha.
    destruct Ha as [<- | [<- | []]]; discriminate.
Defined.

(** ** The hook around the server actions *)

Lemma fn_normal {R} (cb : Action R) (h : UseFetch.HookState R) (d : Db)
  (r : R) :
  fst (cb d) = Normal r ->
  UseFetch.fn cb h d
  = (UseFetch.Response r,
     UseFetch.mkHookState (Some r) false None (UseFetch.toasts h),
     snd (cb d)).
Proof.
  unfold UseFetch.fn. destruct (cb d) as [[r'|e] d']; simpl; intros E.
  - now injection E as ->.
  - discriminate.
Qed.

Lemma try_catch_normal {A} (m : Action A) (handler : Exception -> A)
  (d : Db) :
  exists r, fst (try_catch m (fun e => ret (handler e)) d) = Normal r.
Proof.
  unfold try_catch. destruct (m d) as [[a|e] d']; eexists; reflexivity.
Qed.

(** X22. No modelled server action ever rejects, so [useFetch] around one
    never takes its [catch] branch: [fn] returns the result object of the
    action as it is (a [{ success: false }] included), stores it in
    [data], leaves [error] at [null] and [loading] at [false], and shows no
    toast. *)
Theorem useFetch_around_actions :
  forall (d : Db) (session : Session),
    (forall transactionIds (h : UseFetch.HookState (Result unit)),
       exists r,
         UseFetch.fn (bulkDeleteTransactions session transactionIds) h d
         = (UseFetch.Response r,
            UseFetch.mkHookState (Some r) false None (UseFetch.toasts h),
            snd (bulkDeleteTransactions session transactionIds d)))
    /\ (forall accountId (h : UseFetch.HookState (Result Account)),
          exists r,
            UseFetch.fn (updateDefaultAccount session accountId) h d
            = (UseFetch.Response r,
               UseFetch.mkHookState (Some r) false None (UseFetch.toasts h),
               snd (updateDefaultAccount session accountId d)))
    /\ (forall decision newId data
               (h : UseFetch.HookState (Result SerializedAccount)),
          (exists r,
             UseFetch.fn (Dashboard.createAccount session decision newId data)
               h d
             = (UseFetch.Response r,
                UseFetch.mkHookState (Some r) false None (UseFetch.toasts h),
                snd (Dashboard.createAccount session decision newId data d)))
          /\ (exists r,
                UseFetch.fn
                  (DashboardConn.createAccount session decision newId data)
                  h d
                = (UseFetch.Response r,
                   UseFetch.mkHookState (Some r) false None
                     (UseFetch.toasts h),
                   snd (DashboardConn.createAccount session decision newId
                          data d)))).
Proof.
  intros d session. split; [| split].
  - intros ids h.
    assert (Hr : exists r,
              fst (bulkDeleteTransactions session ids d) = Normal r).
    { unfold bulkDeleteTransactions.
      apply (try_catch_normal _ (fun e => Failure (message e)) d). }
    destruct Hr as [r Hr]. exists r. now apply fn_normal.
  - intros accountId h.
    assert (Hr : exists r,
              fst (updateDefaultAccount session accountId d) = Normal r).
    { unfold updateDefaultAccount.
      apply (try_catch_normal _ (fun e => Failure (message e)) d). }
    destruct Hr as [r Hr]. exists r. now apply fn_normal.
  - intros decision newId data h. split.
    + assert (Hr : exists r,
                fst (Dashboard.createAccount session decision newId data d)
                = Normal r).
      { unfold Dashboard.createAccount.
        apply (try_catch_normal _
                 (fun _ => Failure (Text "Failed to create account")) d). }
      destruct Hr as [r Hr]. exists r. now apply fn_normal.
    + assert (Hr : exists r,
                fst (DashboardConn.createAccount session decision newId data
                       d) = Normal r).
      { destruct (DashboardConn.createAccount session decision newId data d)
          as [c d'] eqn:E.
        destruct (createAccountConn_outcome _ _ _ _ _ _ _ E)
          as (_ & _ & _ & [(m & Ec & _)
                          | [(user & _ & Ec & _)
                            | (user & q & _ & _ & _ & Ec & _)]]);
          eexists; simpl; exact Ec. }
      destruct Hr as [r Hr]. exists r. now apply fn_normal.
Qed.

(** ** The default account across calls *)

(** X23. A switch to an identifier that resolves to no account of the
    caller returns the client's "record not found" error and leaves every
    account of the caller without the default flag: the flags that
    [updateMany] cleared stay cleared. *)
Theorem failed_switch_clears_defaults :
  forall (d : Db) (session : Session) (accountId : Id) (user : User),
    current_user session d = Some user ->
    (forall a, In a (accounts d) -> account_id a = accountId ->
               account_userId a <> user_id user) ->
    updateDefaultAccount session accountId d
    = (Normal (Failure (PrismaText RecordNotFound)),
       with_accounts (map (clear_default (user_id user)) (accounts d)) d)
    /\ defaults_of (user_id user)
         (snd (updateDefaultAccount session accountId d)) = [].
Proof.
  intros d session accountId user Hu Hnot.
  rewrite (updateDefault_not_found d session accountId user Hu Hnot).
  split; [reflexivity |].
  unfold defaults_of, accounts_of. cbn [snd accounts with_accounts].
  apply no_default_after_clear.
Qed.

(** Bob asks for account A of Alice as his default. *)
Lemma failed_switch_clears_defaults_witness :
  updateDefaultAccount (Some "clerk_bob") "A" db_cross
  = (Normal (Failure (PrismaText RecordNotFound)),
     with_accounts (map (clear_default "u2") (accounts db_cross)) db_cross)
  /\ defaults_of "u2"
       (snd (updateDefaultAccount (Some "clerk_bob") "A" db_cross)) = [].
Proof.
  apply (failed_switch_clears_defaults db_cross (Some "clerk_bob") "A" bob).
  - reflexivity.
  - intros a Ha Eid. simpl in Ha.
    destruct Ha as [<- | [<- | []]]; discriminate.
Defined.

(** X24. Over any sequence of calls in which every creation and every
    switch returns [{ success: true }] (bulk deletions may return what
    they will), a user whose accounts had a well-formed default at the
    start (exactly one when there is an account, none otherwise) has a
    well-formed default at the end. *)
Theorem successful_calls_keep_default :
  forall (ops : list Operation) (d : Db) (v : Id),
    all_succeed ops d ->
    default_singleton v d ->
    default_singleton v (run ops d).
Proof.
  induction ops as [|op ops IH]; intros d v Hall Hd.
  - exact Hd.
  - destruct Hall as [Hop Hall]. rewrite run_cons.
    apply IH; [exact Hall |]. now apply exec_keeps_singleton.
Qed.

Lemma successful_calls_keep_default_witness :
  default_singleton "u1"
    (run [CreateAccount (Some "clerk_alice") Allowed "A"
            (mkAccountInput "Main" CURRENT "200" false);
          CreateAccountConn (Some "clerk_alice") Allowed "B"
            (mkAccountInput "Rainy day" SAVINGS "50" true);
          UpdateDefaultAccount (Some "clerk_alice") "A"]
       db_users).
Proof.
  apply successful_calls_keep_default.
  - simpl. repeat split; eexists; vm_compute; reflexivity.
  - reflexivity.
Defined.






(** ** Bulk deletions in a row *)









